(** * seller-apis: reconciliation and batching of marketplace updates

    A shallow embedding of [seller.py] (Ozon) and [market.py]
    (Yandex.Market) and the verification of their reconciliation engine:
    quantity and price normalisation, [create_stocks], [create_prices],
    [divide], the pagination loop [get_offer_ids] and the orchestrators
    [upload_stocks] and [main].

    Modelling conventions.
    - A Python [str] is a [string]: a sequence of 8-bit characters.  Text
      outside ASCII is held as its UTF-8 bytes; every byte of such a
      character is above 127, so it is neither a digit, a dot, a sign nor
      ASCII white space, exactly as the character itself.  [int()] also
      reads the decimal digits and the white space outside ASCII: it
      decodes the bytes and looks the characters up in the tables of the
      Unicode database ([decimal_runs], [unicode_spaces]: Unicode 14.0, as
      in CPython 3.11).
    - A Python [int] is a [Z].  The interpreter's configurable limit on the
      length of decimal conversions is not modelled.
    - A cell of the feed is a [pyval]: [None], an [int] or a [str]
      (floating-point cells are outside the model).
    - An exception is a value of [pyerr] carried by [result].
    - A list the code mutates in place ([offer_ids]) is threaded explicitly:
      the function returns the final content of the caller's list object
      next to its result.
    - Calls to the marketplaces go through collaborators acting on an
      abstract [world]; a loop that may not terminate takes fuel and returns
      [None] when the fuel is exhausted. *)

From Stdlib Require Import ZArith List String Ascii Bool Lia Permutation.
From Stdlib Require Import Decimal DecimalString DecimalZ DecimalPos DecimalN.
Import ListNotations.

#[local] Open Scope string_scope.
#[local] Open Scope list_scope.
#[local] Open Scope Z_scope.

(** ** Python values, exceptions *)

Inductive pyerr : Type :=
| ValueError
| TypeError
| AttributeError
| IndexError
| HTTPError.

Inductive result (A : Type) : Type :=
| Ok (a : A)
| Err (e : pyerr).

Arguments Ok {A} a.
Arguments Err {A} e.

Inductive pyval : Type :=
| VNone
| VInt (z : Z)
| VStr (s : string).

(** ** Strings *)

Definition is_digit (c : ascii) : bool :=
  let n := nat_of_ascii c in (48 <=? n)%nat && (n <=? 57)%nat.

Definition digit_value (c : ascii) : Z := Z.of_nat (nat_of_ascii c) - 48.

(** [Py_ISSPACE]: tab, line feed, vertical tab, form feed, carriage return,
    space. *)
Definition is_space (c : ascii) : bool :=
  let n := nat_of_ascii c in
  ((9 <=? n)%nat && (n <=? 13)%nat) || (n =? 32)%nat.

Fixpoint skip_space (s : string) : string :=
  match s with
  | String c s' => if is_space c then skip_space s' else s
  | EmptyString => EmptyString
  end.

(** The digit scan of [PyLong_FromString] in base 10: digits, with single
    underscores accepted anywhere in the run.  Returns the value and the
    number of digits read, whether the last character read was an
    underscore, and the unread rest; [None] on a doubled underscore. *)
Fixpoint scan_digits (s : string) (acc : Z) (digits : nat) (prev_us : bool)
  : option (Z * nat * bool * string) :=
  match s with
  | String c s' =>
      if is_digit c then
        scan_digits s' (10 * acc + digit_value c) (S digits) false
      else if Ascii.eqb c "_" then
        if prev_us then None else scan_digits s' acc digits true
      else Some (acc, digits, prev_us, s)
  | EmptyString => Some (acc, digits, prev_us, EmptyString)
  end.

Definition read_sign (s : string) : Z * string :=
  match s with
  | String c s' =>
      if Ascii.eqb c "+" then (1, s')
      else if Ascii.eqb c "-" then (-1, s')
      else (1, s)
  | EmptyString => (1, s)
  end.

Definition starts_with_underscore (s : string) : bool :=
  match s with
  | String c _ => Ascii.eqb c "_"
  | EmptyString => false
  end.

(** [PyLong_FromString] in base 10, on the ASCII text of the number:
    white space, an optional sign, a run of digits with single inner
    underscores, white space. *)
Definition PyLong_FromString (s : string) : result Z :=
  let (sign, body) := read_sign (skip_space s) in
  if starts_with_underscore body then Err ValueError
  else
    match scan_digits body 0 0%nat false with
    | None => Err ValueError
    | Some (v, digits, prev_us, rest) =>
        if prev_us then Err ValueError
        else if (digits =? 0)%nat then Err ValueError
        else
          match skip_space rest with
          | EmptyString => Ok (sign * v)
          | String _ _ => Err ValueError
          end
    end.

(** The characters outside ASCII that [str.isspace] holds for white
    space. *)
Definition unicode_spaces : list N :=
  [0x85; 0xA0; 0x1680; 0x2000; 0x2001; 0x2002; 0x2003; 0x2004; 0x2005;
   0x2006; 0x2007; 0x2008; 0x2009; 0x200A; 0x2028; 0x2029; 0x202F; 0x205F;
   0x3000]%N.

(** The decimal digits outside ASCII: each run starts at a digit zero and
    holds the digits 0 to 9 in order, as many times as its length says. *)
Definition decimal_runs : list (N * N) :=
  [(0x660, 10); (0x6F0, 10); (0x7C0, 10); (0x966, 10); (0x9E6, 10);
   (0xA66, 10); (0xAE6, 10); (0xB66, 10); (0xBE6, 10); (0xC66, 10);
   (0xCE6, 10); (0xD66, 10); (0xDE6, 10); (0xE50, 10); (0xED0, 10);
   (0xF20, 10); (0x1040, 10); (0x1090, 10); (0x17E0, 10); (0x1810, 10);
   (0x1946, 10); (0x19D0, 10); (0x1A80, 10); (0x1A90, 10); (0x1B50, 10);
   (0x1BB0, 10); (0x1C40, 10); (0x1C50, 10); (0xA620, 10); (0xA8D0, 10);
   (0xA900, 10); (0xA9D0, 10); (0xA9F0, 10); (0xAA50, 10); (0xABF0, 10);
   (0xFF10, 10); (0x104A0, 10); (0x10D30, 10); (0x11066, 10);
   (0x110F0, 10); (0x11136, 10); (0x111D0, 10); (0x112F0, 10);
   (0x11450, 10); (0x114D0, 10); (0x11650, 10); (0x116C0, 10);
   (0x11730, 10); (0x118E0, 10); (0x11950, 10); (0x11C50, 10);
   (0x11D50, 10); (0x11DA0, 10); (0x16A60, 10); (0x16AC0, 10);
   (0x16B50, 10); (0x1D7CE, 50); (0x1E140, 10); (0x1E2F0, 10);
   (0x1E950, 10); (0x1FBF0, 10)]%N.

(** [Py_UNICODE_ISSPACE] on a character outside ASCII. *)
Definition Py_UNICODE_ISSPACE (cp : N) : bool :=
  existsb (N.eqb cp) unicode_spaces.

Fixpoint find_decimal (runs : list (N * N)) (cp : N) : option N :=
  match runs with
  | [] => None
  | (start, len) :: rest =>
      if ((start <=? cp) && (cp <? start + len))%N
      then Some ((cp - start) mod 10)%N
      else find_decimal rest cp
  end.

(** [Py_UNICODE_TODECIMAL] on a character outside ASCII. *)
Definition Py_UNICODE_TODECIMAL (cp : N) : option N :=
  find_decimal decimal_runs cp.

(** The payload of a continuation byte of UTF-8. *)
Definition continuation (c : ascii) : option N :=
  let n := N_of_ascii c in
  if ((128 <=? n) && (n <? 192))%N then Some (n - 128)%N else None.

(** What [_PyUnicode_TransformDecimalAndSpaceToASCII] writes for one
    character outside ASCII, before the text [rest] of the characters that
    follow: a space for white space, the ASCII digit for a decimal digit,
    and for any other character a question mark, at which the text
    ends. *)
Definition transform_char (cp : N) (rest : string) : string :=
  if Py_UNICODE_ISSPACE cp then String " " rest
  else
    match Py_UNICODE_TODECIMAL cp with
    | Some d => String (ascii_of_N (48 + d)) rest
    | None => "?"
    end.

(** [_PyUnicode_TransformDecimalAndSpaceToASCII] on the UTF-8 bytes of a
    string: a character below 127 is kept, the others go through
    [transform_char]; bytes that encode no character end the text with a
    question mark as well. *)
Fixpoint TransformDecimalAndSpaceToASCII (s : string) : string :=
  match s with
  | EmptyString => EmptyString
  | String b0 s1 =>
      let n0 := N_of_ascii b0 in
      if (n0 <? 127)%N then String b0 (TransformDecimalAndSpaceToASCII s1)
      else if (n0 <? 194)%N then "?"
      else if (n0 <? 224)%N then
        match s1 with
        | String b1 s2 =>
            match continuation b1 with
            | Some n1 =>
                transform_char ((n0 - 192) * 64 + n1)
                  (TransformDecimalAndSpaceToASCII s2)
            | None => "?"
            end
        | EmptyString => "?"
        end
      else if (n0 <? 240)%N then
        match s1 with
        | String b1 (String b2 s3) =>
            match continuation b1, continuation b2 with
            | Some n1, Some n2 =>
                transform_char (((n0 - 224) * 64 + n1) * 64 + n2)
                  (TransformDecimalAndSpaceToASCII s3)
            | _, _ => "?"
            end
        | _ => "?"
        end
      else if (n0 <? 248)%N then
        match s1 with
        | String b1 (String b2 (String b3 s4)) =>
            match continuation b1, continuation b2, continuation b3 with
            | Some n1, Some n2, Some n3 =>
                transform_char
                  ((((n0 - 240) * 64 + n1) * 64 + n2) * 64 + n3)
                  (TransformDecimalAndSpaceToASCII s4)
            | _, _, _ => "?"
            end
        | _ => "?"
        end
      else "?"
  end.

Definition is_ascii (c : ascii) : bool := (N_of_ascii c <? 128)%N.

(** [PyUnicode_IS_ASCII] *)
Fixpoint string_is_ascii (s : string) : bool :=
  match s with
  | EmptyString => true
  | String c s' => is_ascii c && string_is_ascii s'
  end.

(** [int(s)] for a [str]: an ASCII string is parsed as it is, any other
    one after its digits and white space are brought to ASCII. *)
Definition py_int_str (s : string) : result Z :=
  PyLong_FromString
    (if string_is_ascii s then s else TransformDecimalAndSpaceToASCII s).

(** [str(v)]. *)
Definition py_str (v : pyval) : string :=
  match v with
  | VNone => "None"
  | VInt z => NilZero.string_of_int (Z.to_int z)
  | VStr s => s
  end.

(** [int(v)]. *)
Definition py_int (v : pyval) : result Z :=
  match v with
  | VNone => Err TypeError
  | VInt z => Ok z
  | VStr s => py_int_str s
  end.

(** ** Lists of strings *)

(** [x in l]. *)
Definition py_in (x : string) (l : list string) : bool :=
  existsb (String.eqb x) l.

(** [l.remove(x)]: drops the first occurrence; [ValueError] when there is
    none. *)
Fixpoint py_remove (x : string) (l : list string) : result (list string) :=
  match l with
  | [] => Err ValueError
  | y :: l' =>
      if String.eqb y x then Ok l'
      else
        match py_remove x l' with
        | Ok r => Ok (y :: r)
        | Err e => Err e
        end
  end.

(** ** The feed *)

(** One row of the feed, a dict read through [watch.get(key)]: a missing
    key reads as [VNone].  [kod], [kolichestvo] and [tsena] are the keys
    "Код", "Количество" and "Цена". *)
Record watch : Type := {
  kod : pyval;
  kolichestvo : pyval;
  tsena : pyval
}.

(** The stock count of a matched row: the [if count == ">10" / elif
    count == "1" / else] block shared by both [create_stocks]
    (seller.py 197-203, market.py 164-170). *)
Definition stock_count (w : watch) : result Z :=
  let count := py_str (kolichestvo w) in
  if String.eqb count ">10" then Ok 100
  else if String.eqb count "1" then Ok 0
  else py_int (kolichestvo w).

(** ** Splitting and filtering strings *)

(** [s.split(sep)] for a separator of one character: the pieces between
    the separators, never an empty list. *)
Fixpoint py_split (sep : ascii) (s : string) : list string :=
  match s with
  | EmptyString => [EmptyString]
  | String c s' =>
      if Ascii.eqb c sep then EmptyString :: py_split sep s'
      else
        match py_split sep s' with
        | piece :: pieces => String c piece :: pieces
        | [] => [String c EmptyString]
        end
  end.

(** [re.sub("[^0-9]", '', s)]. *)
Fixpoint re_sub_non_digits (s : string) : string :=
  match s with
  | EmptyString => EmptyString
  | String c s' =>
      if is_digit c then String c (re_sub_non_digits s')
      else re_sub_non_digits s'
  end.

(** ** Ranges and slices *)

(** [len(range(start, stop, step))] as CPython computes it. *)
Definition py_range_len (start stop step : Z) : nat :=
  if 0 <? step then
    if start <? stop then Z.to_nat ((stop - start - 1) / step + 1) else 0%nat
  else
    if stop <? start then Z.to_nat ((start - stop - 1) / (- step) + 1) else 0%nat.

(** [list(range(start, stop, step))]; a zero step is a [ValueError]. *)
Definition py_range (start stop step : Z) : result (list Z) :=
  if step =? 0 then Err ValueError
  else
    Ok (map (fun k => start + Z.of_nat k * step)
            (seq 0 (py_range_len start stop step))).

(** A slice bound brought into [0, len]: negative bounds count from the
    end. *)
Definition clamp_index (len i : Z) : Z :=
  if i <? 0 then Z.max (i + len) 0 else Z.min i len.

(** [l[i:j]]. *)
Definition py_slice {A : Type} (l : list A) (i j : Z) : list A :=
  let len := Z.of_nat (List.length l) in
  let lo := clamp_index len i in
  let hi := clamp_index len j in
  firstn (Z.to_nat (hi - lo)) (skipn (Z.to_nat lo) l).

(** ** Effects on the marketplaces *)

(** A computation over the world [W] that may raise, or not terminate
    within its fuel ([None]). *)
Definition M (W A : Type) : Type := W -> option (result A * W).

Definition ret {W A : Type} (a : A) : M W A := fun w => Some (Ok a, w).

Definition bind {W A B : Type} (m : M W A) (k : A -> M W B) : M W B :=
  fun w =>
    match m w with
    | None => None
    | Some (Err e, w') => Some (Err e, w')
    | Some (Ok a, w') => k a w'
    end.

(** A pure step that may raise. *)
Definition lift {W A : Type} (r : result A) : M W A := fun w => Some (r, w).

(** A look at the world that leaves it as it is. *)
Definition read {W A : Type} (f : W -> A) : M W A :=
  fun w => Some (Ok (f w), w).

(** One call to a collaborator. *)
Definition call {W A : Type} (f : W -> result A * W) : M W A :=
  fun w => Some (f w).

(** [try: m except Exception: handler]. *)
Definition try_except {W A : Type} (m : M W A) (handler : pyerr -> M W A)
  : M W A :=
  fun w =>
    match m w with
    | None => None
    | Some (Err e, w') => handler e w'
    | Some (Ok a, w') => Some (Ok a, w')
    end.

Declare Scope py_scope.
Delimit Scope py_scope with py.
Notation "x <- c1 ;; c2" := (bind c1 (fun x => c2))
  (at level 100, c1 at next level, right associativity) : py_scope.
Notation "c1 ;;; c2" := (bind c1 (fun _ => c2))
  (at level 100, right associativity) : py_scope.

(** [for x in l: body(x)]. *)
Fixpoint for_each {W A : Type} (l : list A) (body : A -> M W unit)
  : M W unit :=
  match l with
  | [] => ret tt
  | x :: l' => bind (body x) (fun _ => for_each l' body)
  end.

(** [list(filter(f, l))] for a test that may raise. *)
Fixpoint py_filter {A : Type} (f : A -> result bool) (l : list A)
  : result (list A) :=
  match l with
  | [] => Ok []
  | x :: l' =>
      match f x with
      | Err e => Err e
      | Ok b =>
          match py_filter f l' with
          | Err e => Err e
          | Ok r => Ok (if b then x :: r else r)
          end
      end
  end.

(** ** seller.py *)

Module Seller.

(** [{"offer_id": ..., "stock": ...}] *)
Record stock_entry : Type := {
  offer_id : string;
  stock : Z
}.

(** [{"auto_action_enabled": ..., "currency_code": ..., "offer_id": ...,
    "old_price": ..., "price": ...}] *)
Record price_entry : Type := {
  auto_action_enabled : string;
  currency_code : string;
  price_offer_id : string;
  old_price : string;
  price : string
}.

(** The loop of [create_stocks] over [watch_remnants], on the local
    [stocks] and on the caller's [offer_ids]. *)
Fixpoint create_stocks_loop (watch_remnants : list watch)
    (stocks : list stock_entry) (offer_ids : list string)
  : result (list stock_entry) * list string :=
  match watch_remnants with
  | [] => (Ok stocks, offer_ids)
  | w :: rest =>
      if py_in (py_str (kod w)) offer_ids then
        match stock_count w with
        | Err e => (Err e, offer_ids)
        | Ok n =>
            let stocks' :=
              stocks ++ [{| offer_id := py_str (kod w); stock := n |}] in
            match py_remove (py_str (kod w)) offer_ids with
            | Err e => (Err e, offer_ids)
            | Ok offer_ids' => create_stocks_loop rest stocks' offer_ids'
            end
        end
      else create_stocks_loop rest stocks offer_ids
  end.

(** [create_stocks(watch_remnants, offer_ids)]: the result, and the
    content of the caller's [offer_ids] when the call ends. *)
Definition create_stocks (watch_remnants : list watch)
    (offer_ids : list string) : result (list stock_entry) * list string :=
  match create_stocks_loop watch_remnants [] offer_ids with
  | (Ok stocks, offer_ids') =>
      (Ok (stocks ++
           map (fun i => {| offer_id := i; stock := 0 |}) offer_ids'),
       offer_ids')
  | (Err e, offer_ids') => (Err e, offer_ids')
  end.

(** [price_conversion(price)]; a value without [split] is an
    [AttributeError]. *)
Definition price_conversion (price : pyval) : result string :=
  match price with
  | VStr s => Ok (re_sub_non_digits (nth 0 (py_split "." s) EmptyString))
  | VNone | VInt _ => Err AttributeError
  end.

Fixpoint create_prices_loop (watch_remnants : list watch)
    (prices : list price_entry) (offer_ids : list string)
  : result (list price_entry) :=
  match watch_remnants with
  | [] => Ok prices
  | w :: rest =>
      if py_in (py_str (kod w)) offer_ids then
        match price_conversion (tsena w) with
        | Err e => Err e
        | Ok p =>
            create_prices_loop rest
              (prices ++ [{| auto_action_enabled := "UNKNOWN";
                             currency_code := "RUB";
                             price_offer_id := py_str (kod w);
                             old_price := "0";
                             price := p |}])
              offer_ids
        end
      else create_prices_loop rest prices offer_ids
  end.

(** [create_prices(watch_remnants, offer_ids)]; [offer_ids] is only
    read. *)
Definition create_prices (watch_remnants : list watch)
    (offer_ids : list string) : result (list price_entry) :=
  create_prices_loop watch_remnants [] offer_ids.

(** [list(divide(lst, n))]. *)
Definition divide {A : Type} (lst : list A) (n : Z) : result (list (list A)) :=
  match py_range 0 (Z.of_nat (List.length lst)) n with
  | Err e => Err e
  | Ok indices => Ok (map (fun i => py_slice lst i (i + n)) indices)
  end.

(** One product of a catalogue page, read by [product.get("offer_id")]. *)
Record product : Type := { product_offer_id : string }.

(** The ["result"] of one catalogue page, with its keys ["items"],
    ["total"] and ["last_id"]. *)
Record page : Type := {
  result_items : list product;
  result_total : Z;
  result_last_id : string
}.

Section Orchestration.

Variable world : Type.
(** [get_product_list(last_id, client_id, seller_token)] *)
Variable get_product_list :
  string -> string -> string -> world -> result page * world.
(** [update_stocks(stocks, client_id, seller_token)] *)
Variable update_stocks :
  list stock_entry -> string -> string -> world -> result unit * world.
(** [update_price(prices, client_id, seller_token)] *)
Variable update_price :
  list price_entry -> string -> string -> world -> result unit * world.
(** [download_stock()] *)
Variable download_stock : world -> result (list watch) * world.

(** The [while True] loop of [get_offer_ids]. *)
Fixpoint get_offer_ids_loop (fuel : nat) (client_id seller_token : string)
    (last_id : string) (product_list : list product)
  : M world (list product) :=
  match fuel with
  | O => fun _ => None
  | S fuel' =>
      (some_prod <- call (get_product_list last_id client_id seller_token) ;;
       let product_list' := product_list ++ result_items some_prod in
       if result_total some_prod =? Z.of_nat (List.length product_list')
       then ret product_list'
       else get_offer_ids_loop fuel' client_id seller_token
              (result_last_id some_prod) product_list')%py
  end.

Definition get_offer_ids (fuel : nat) (client_id seller_token : string)
  : M world (list string) :=
  (product_list <-
     get_offer_ids_loop fuel client_id seller_token EmptyString [] ;;
   ret (map product_offer_id product_list))%py.

Definition upload_prices (fuel : nat) (watch_remnants : list watch)
    (client_id seller_token : string) : M world (list price_entry) :=
  (offer_ids <- get_offer_ids fuel client_id seller_token ;;
   prices <- lift (create_prices watch_remnants offer_ids) ;;
   batches <- lift (divide prices 1000) ;;
   for_each batches
     (fun some_price => call (update_price some_price client_id seller_token)) ;;;
   ret prices)%py.

Definition upload_stocks (fuel : nat) (watch_remnants : list watch)
    (client_id seller_token : string)
  : M world (list stock_entry * list stock_entry) :=
  (offer_ids <- get_offer_ids fuel client_id seller_token ;;
   stocks <- lift (fst (create_stocks watch_remnants offer_ids)) ;;
   batches <- lift (divide stocks 100) ;;
   for_each batches
     (fun some_stock => call (update_stocks some_stock client_id seller_token)) ;;;
   let not_empty := filter (fun s => negb (stock s =? 0)) stocks in
   ret (not_empty, stocks))%py.

(** The [try] statement of [main()].  The two [env.str] reads stand
    before it in the source, and what they raise is not caught: here they
    are done, and their values are [client_id] and [seller_token].  Both
    passes share the one [offer_ids] list, and every exception raised
    inside the statement is caught and printed. *)
Definition main (fuel : nat) (client_id seller_token : string)
  : M world unit :=
  try_except
    (offer_ids <- get_offer_ids fuel client_id seller_token ;;
     watch_remnants <- call download_stock ;;
     let (r, offer_ids') := create_stocks watch_remnants offer_ids in
     stocks <- lift r ;;
     stock_batches <- lift (divide stocks 100) ;;
     for_each stock_batches
       (fun some_stock =>
          call (update_stocks some_stock client_id seller_token)) ;;;
     prices <- lift (create_prices watch_remnants offer_ids') ;;
     price_batches <- lift (divide prices 900) ;;
     for_each price_batches
       (fun some_price =>
          call (update_price some_price client_id seller_token)))%py
    (fun _ => ret tt).

End Orchestration.

End Seller.

(** ** market.py *)

Module Market.

(** [{"count": ..., "type": ..., "updatedAt": ...}] *)
Record item : Type := {
  count : Z;
  item_type : string;
  updatedAt : string
}.

(** [{"sku": ..., "warehouseId": ..., "items": [...]}] *)
Record stock_entry : Type := {
  sku : string;
  warehouseId : string;
  items : list item
}.

(** [{"value": ..., "currencyId": ...}] *)
Record price_value : Type := {
  value : Z;
  currencyId : string
}.

(** [{"id": ..., "price": {...}}] *)
Record price_entry : Type := {
  price_id : string;
  price : price_value
}.

(** The entry appended for the offer [i] with the stock [n]. *)
Definition stock_of (warehouse_id date i : string) (n : Z) : stock_entry :=
  {| sku := i;
     warehouseId := warehouse_id;
     items := [{| count := n; item_type := "FIT"; updatedAt := date |}] |}.

(** The loop of [create_stocks]; [date] is the clock reading taken when
    the call starts. *)
Fixpoint create_stocks_loop (watch_remnants : list watch)
    (stocks : list stock_entry) (offer_ids : list string)
    (warehouse_id date : string)
  : result (list stock_entry) * list string :=
  match watch_remnants with
  | [] => (Ok stocks, offer_ids)
  | w :: rest =>
      if py_in (py_str (kod w)) offer_ids then
        match stock_count w with
        | Err e => (Err e, offer_ids)
        | Ok n =>
            let stocks' :=
              stocks ++ [stock_of warehouse_id date (py_str (kod w)) n] in
            match py_remove (py_str (kod w)) offer_ids with
            | Err e => (Err e, offer_ids)
            | Ok offer_ids' =>
                create_stocks_loop rest stocks' offer_ids' warehouse_id date
            end
        end
      else create_stocks_loop rest stocks offer_ids warehouse_id date
  end.

(** [create_stocks(watch_remnants, offer_ids, warehouse_id)]: the result,
    and the content of the caller's [offer_ids] when the call ends. *)
Definition create_stocks (watch_remnants : list watch)
    (offer_ids : list string) (warehouse_id date : string)
  : result (list stock_entry) * list string :=
  match create_stocks_loop watch_remnants [] offer_ids warehouse_id date with
  | (Ok stocks, offer_ids') =>
      (Ok (stocks ++
           map (fun i => stock_of warehouse_id date i 0) offer_ids'),
       offer_ids')
  | (Err e, offer_ids') => (Err e, offer_ids')
  end.

(** [int(price_conversion(price))] *)
Definition price_of (price : pyval) : result Z :=
  match Seller.price_conversion price with
  | Err e => Err e
  | Ok digits => py_int (VStr digits)
  end.

Fixpoint create_prices_loop (watch_remnants : list watch)
    (prices : list price_entry) (offer_ids : list string)
  : result (list price_entry) :=
  match watch_remnants with
  | [] => Ok prices
  | w :: rest =>
      if py_in (py_str (kod w)) offer_ids then
        match price_of (tsena w) with
        | Err e => Err e
        | Ok v =>
            create_prices_loop rest
              (prices ++ [{| price_id := py_str (kod w);
                             price := {| value := v; currencyId := "RUR" |} |}])
              offer_ids
        end
      else create_prices_loop rest prices offer_ids
  end.

(** [create_prices(watch_remnants, offer_ids)]; [offer_ids] is only
    read. *)
Definition create_prices (watch_remnants : list watch)
    (offer_ids : list string) : result (list price_entry) :=
  create_prices_loop watch_remnants [] offer_ids.

Record offer : Type := { shopSku : string }.

Record offer_mapping_entry : Type := { entry_offer : offer }.

Record paging_info : Type := { nextPageToken : option string }.

(** The ["result"] of one catalogue page. *)
Record page_result : Type := {
  offerMappingEntries : list offer_mapping_entry;
  paging : paging_info
}.

(** [not page] for the token just read. *)
Definition no_next_page (token : option string) : bool :=
  match token with
  | None => true
  | Some t => String.eqb t EmptyString
  end.

(** The token as the next call receives it. *)
Definition token_text (token : option string) : string :=
  match token with
  | None => EmptyString
  | Some t => t
  end.

(** [stock.get("items")[0].get("count") != 0] *)
Definition count_is_not_zero (s : stock_entry) : result bool :=
  match items s with
  | [] => Err IndexError
  | it :: _ => Ok (negb (count it =? 0))
  end.

Section Orchestration.

Variable world : Type.
(** [get_product_list(page, campaign_id, access_token)] *)
Variable get_product_list :
  string -> string -> string -> world -> result page_result * world.
(** [update_stocks(stocks, campaign_id, access_token)] *)
Variable update_stocks :
  list stock_entry -> string -> string -> world -> result unit * world.
(** [update_price(prices, campaign_id, access_token)] *)
Variable update_price :
  list price_entry -> string -> string -> world -> result unit * world.
(** [datetime.datetime.utcnow()], formatted *)
Variable utcnow : world -> string.

(** The [while True] loop of [get_offer_ids]. *)
Fixpoint get_offer_ids_loop (fuel : nat) (campaign_id market_token : string)
    (page : string) (product_list : list offer_mapping_entry)
  : M world (list offer_mapping_entry) :=
  match fuel with
  | O => fun _ => None
  | S fuel' =>
      (some_prod <- call (get_product_list page campaign_id market_token) ;;
       let product_list' := product_list ++ offerMappingEntries some_prod in
       let page' := nextPageToken (paging some_prod) in
       if no_next_page page' then ret product_list'
       else get_offer_ids_loop fuel' campaign_id market_token
              (token_text page') product_list')%py
  end.

Definition get_offer_ids (fuel : nat) (campaign_id market_token : string)
  : M world (list string) :=
  (product_list <-
     get_offer_ids_loop fuel campaign_id market_token EmptyString [] ;;
   ret (map (fun p => shopSku (entry_offer p)) product_list))%py.

Definition upload_prices (fuel : nat) (watch_remnants : list watch)
    (campaign_id market_token : string) : M world (list price_entry) :=
  (offer_ids <- get_offer_ids fuel campaign_id market_token ;;
   prices <- lift (create_prices watch_remnants offer_ids) ;;
   batches <- lift (Seller.divide prices 500) ;;
   for_each batches
     (fun some_prices =>
        call (update_price some_prices campaign_id market_token)) ;;;
   ret prices)%py.

Definition upload_stocks (fuel : nat) (watch_remnants : list watch)
    (campaign_id market_token warehouse_id : string)
  : M world (list stock_entry * list stock_entry) :=
  (offer_ids <- get_offer_ids fuel campaign_id market_token ;;
   date <- read utcnow ;;
   stocks <- lift (fst (create_stocks watch_remnants offer_ids
                          warehouse_id date)) ;;
   batches <- lift (Seller.divide stocks 2000) ;;
   for_each batches
     (fun some_stock =>
        call (update_stocks some_stock campaign_id market_token)) ;;;
   not_empty <- lift (py_filter count_is_not_zero stocks) ;;
   ret (not_empty, stocks))%py.

End Orchestration.

End Market.

(** ** Reference definitions

    The definitions below are not part of the program: they word the
    properties that the program is checked against. *)

(** Every character of [s] passes [p]. *)
Fixpoint all_chars (p : ascii -> bool) (s : string) : bool :=
  match s with
  | EmptyString => true
  | String c s' => p c && all_chars p s'
  end.


Definition not_minus (c : ascii) : bool := negb (Ascii.eqb c "-").

(** A quantity cell that does not denote a negative number: an [int] that
    is not negative, or a [str] without a minus sign. *)
Definition no_minus_sign (v : pyval) : bool :=
  match v with
  | VNone => true
  | VInt z => 0 <=? z
  | VStr s => all_chars not_minus s
  end.

(** The code of a row, as the program reads it: [str(watch.get("Код"))]. *)
Definition code (w : watch) : string := py_str (kod w).

(** The rows of the feed that are honoured: those whose code is a known
    offer id and has not occurred earlier in the feed ([seen] holds the
    codes of the earlier rows). *)
Fixpoint matched (seen : list string) (ws : list watch) (ids : list string)
  : list watch :=
  match ws with
  | [] => []
  | w :: rest =>
      if py_in (code w) ids && negb (py_in (code w) seen)
      then w :: matched (code w :: seen) rest ids
      else matched (code w :: seen) rest ids
  end.

(** The known offer ids that no row of the feed carries, in their
    order. *)
Definition unmatched (ws : list watch) (ids : list string) : list string :=
  filter (fun i => negb (py_in i (map code ws))) ids.

(** The stock count of a row whose quantity normalises. *)
Definition stock_or_zero (w : watch) : Z :=
  match stock_count w with
  | Ok n => n
  | Err _ => 0
  end.

Definition result_map {A B : Type} (f : A -> B) (r : result A) : result B :=
  match r with
  | Ok a => Ok (f a)
  | Err e => Err e
  end.

(** The Yandex.Market entry that carries the same decision as an Ozon
    entry. *)
Definition to_market (warehouse_id date : string) (e : Seller.stock_entry)
  : Market.stock_entry :=
  Market.stock_of warehouse_id date (Seller.offer_id e) (Seller.stock e).

(** The Ozon decision and price entry of a row. *)
Definition seller_decision (w : watch) : Seller.stock_entry :=
  {| Seller.offer_id := code w; Seller.stock := stock_or_zero w |}.

Definition seller_zero (i : string) : Seller.stock_entry :=
  {| Seller.offer_id := i; Seller.stock := 0 |}.

(** [f] over a list, stopping at the first exception. *)
Fixpoint map_result {A B : Type} (f : A -> result B) (l : list A)
  : result (list B) :=
  match l with
  | [] => Ok []
  | x :: l' =>
      match f x with
      | Err e => Err e
      | Ok b =>
          match map_result f l' with
          | Err e => Err e
          | Ok r => Ok (b :: r)
          end
      end
  end.

(** The row carries the code of a known offer id. *)
Definition known (ids : list string) (w : watch) : bool :=
  py_in (code w) ids.

(** The price entry of a row, for Ozon and for Yandex.Market. *)
Definition seller_price (w : watch) : result Seller.price_entry :=
  result_map
    (fun p => {| Seller.auto_action_enabled := "UNKNOWN";
                 Seller.currency_code := "RUB";
                 Seller.price_offer_id := code w;
                 Seller.old_price := "0";
                 Seller.price := p |})
    (Seller.price_conversion (tsena w)).

Definition market_price (w : watch) : result Market.price_entry :=
  result_map
    (fun v => {| Market.price_id := code w;
                 Market.price := {| Market.value := v;
                                    Market.currencyId := "RUR" |} |})
    (Market.price_of (tsena w)).

(** The part of [s] before its first dot. *)
Fixpoint before_dot (s : string) : string :=
  match s with
  | EmptyString => EmptyString
  | String c s' => if Ascii.eqb c "." then EmptyString
                   else String c (before_dot s')
  end.

(** The number that a run of decimal digits denotes, most significant
    digit first. *)
Fixpoint decimal_value (s : string) (acc : Z) : Z :=
  match s with
  | EmptyString => acc
  | String c s' => decimal_value s' (10 * acc + digit_value c)
  end.

(** ** A recording marketplace

    A world that records every submission, with a catalogue served in one
    page, used to run the orchestrators on concrete data. *)

Inductive submission : Type :=
| SentStocks (stocks : list Seller.stock_entry)
| SentPrices (prices : list Seller.price_entry).

Definition recording_world : Type := list submission.

Definition one_page (offer_ids : list string)
  : string -> string -> string -> recording_world ->
    result Seller.page * recording_world :=
  fun _ _ _ w =>
    (Ok {| Seller.result_items :=
             map (fun i => {| Seller.product_offer_id := i |}) offer_ids;
           Seller.result_total := Z.of_nat (List.length offer_ids);
           Seller.result_last_id := "last" |}, w).

Definition record_stocks (stocks : list Seller.stock_entry)
  : string -> string -> recording_world -> result unit * recording_world :=
  fun _ _ w => (Ok tt, w ++ [SentStocks stocks]).

Definition record_prices (prices : list Seller.price_entry)
  : string -> string -> recording_world -> result unit * recording_world :=
  fun _ _ w => (Ok tt, w ++ [SentPrices prices]).

Definition fixed_feed (ws : list watch)
  : recording_world -> result (list watch) * recording_world :=
  fun w => (Ok ws, w).

(** The [k]-th slice of [size] consecutive elements of [l]. *)
Definition chunk {A : Type} (l : list A) (size k : nat) : list A :=
  firstn size (skipn (k * size) l).

(** The reported test on an Ozon and on a Yandex.Market entry. *)
Definition seller_not_empty (e : Seller.stock_entry) : bool :=
  negb (Seller.stock e =? 0).

Definition market_not_empty (e : Market.stock_entry) : bool :=
  match Market.items e with
  | [] => false
  | it :: _ => negb (Market.count it =? 0)
  end.

(** ** Catalogues that come to an end

    [market_pages get_product_list c t page w ps w']: asked from the token
    [page] in the world [w], the Yandex.Market catalogue serves the pages
    [ps], one per call, each but the last with the token of the next, the
    last without one, and leaves the world [w']. *)
Inductive market_pages {world : Type}
    (get_product_list : string -> string -> string -> world ->
                        result Market.page_result * world)
    (campaign_id market_token : string)
  : string -> world -> list Market.page_result -> world -> Prop :=
| market_last_page (page : string) (w w' : world) (p : Market.page_result) :
    get_product_list page campaign_id market_token w = (Ok p, w') ->
    Market.no_next_page (Market.nextPageToken (Market.paging p)) = true ->
    market_pages get_product_list campaign_id market_token page w [p] w'
| market_next_page (page : string) (w w1 w' : world)
    (p : Market.page_result) (t : string) (ps : list Market.page_result) :
    get_product_list page campaign_id market_token w = (Ok p, w1) ->
    Market.nextPageToken (Market.paging p) = Some t ->
    t <> EmptyString ->
    market_pages get_product_list campaign_id market_token t w1 ps w' ->
    market_pages get_product_list campaign_id market_token page w (p :: ps) w'.

(** [seller_pages get_product_list c t last_id count w ps w']: asked from
    [last_id] in the world [w] with [count] products already listed, the
    Ozon catalogue serves the pages [ps], one per call, the last of which
    is the first whose total equals the number of products listed so
    far. *)
Inductive seller_pages {world : Type}
    (get_product_list : string -> string -> string -> world ->
                        result Seller.page * world)
    (client_id seller_token : string)
  : string -> nat -> world -> list Seller.page -> world -> Prop :=
| seller_last_page (last_id : string) (count : nat) (w w' : world)
    (p : Seller.page) :
    get_product_list last_id client_id seller_token w = (Ok p, w') ->
    Seller.result_total p =
      Z.of_nat (count + List.length (Seller.result_items p)) ->
    seller_pages get_product_list client_id seller_token last_id count w
      [p] w'
| seller_next_page (last_id : string) (count : nat) (w w1 w' : world)
    (p : Seller.page) (ps : list Seller.page) :
    get_product_list last_id client_id seller_token w = (Ok p, w1) ->
    Seller.result_total p <>
      Z.of_nat (count + List.length (Seller.result_items p)) ->
    seller_pages get_product_list client_id seller_token
      (Seller.result_last_id p)
      (count + List.length (Seller.result_items p)) w1 ps w' ->
    seller_pages get_product_list client_id seller_token last_id count w
      (p :: ps) w'.

(** An Ozon catalogue whose every page is empty, carries no cursor and
    reports a total of one product. *)
Definition stalled_catalogue
  : string -> string -> string -> unit -> result Seller.page * unit :=
  fun _ _ _ w =>
    (Ok {| Seller.result_items := [];
           Seller.result_total := 1;
           Seller.result_last_id := EmptyString |}, w).

(** An Ozon catalogue of two pages, the first of which carries the cursor
    of the second and already reports its own size as the total. *)
Definition two_page_catalogue
  : string -> string -> string -> unit -> result Seller.page * unit :=
  fun last_id _ _ w =>
    if String.eqb last_id EmptyString then
      (Ok {| Seller.result_items := [{| Seller.product_offer_id := "a" |}];
             Seller.result_total := 1;
             Seller.result_last_id := "page2" |}, w)
    else
      (Ok {| Seller.result_items := [{| Seller.product_offer_id := "b" |}];
             Seller.result_total := 2;
             Seller.result_last_id := EmptyString |}, w).


Definition not_dot (c : ascii) : bool := negb (Ascii.eqb c ".").

(** The price strings that market.py can price: those with a digit before
    the first dot. *)
Definition has_price_digits (v : pyval) : bool :=
  match v with
  | VStr s =>
      match re_sub_non_digits (before_dot s) with
      | EmptyString => false
      | String _ _ => true
      end
  | VNone | VInt _ => false
  end.

(** The Ozon price entry and the Yandex.Market price entry carry the same
    offer id and the same amount, as text and as number. *)
Definition same_price (s : Seller.price_entry) (m : Market.price_entry)
  : Prop :=
  Seller.price_offer_id s = Market.price_id m /\
  py_int_str (Seller.price s) = Ok (Market.value (Market.price m)).

(** A stock collaborator of the recording world that refuses every
    batch. *)
Definition refuse_stocks (stocks : list Seller.stock_entry)
  : string -> string -> recording_world -> result unit * recording_world :=
  fun _ _ w => (Err HTTPError, w).



(** The no-break space is the two bytes C2 A0 of its UTF-8 form. *)
Definition nbsp : string :=
  String (ascii_of_N 194) (String (ascii_of_N 160) EmptyString).

(** * Verification *)

(** ** Decimal conversions *)

Lemma scan_digits_uint_acc (d : uint) (acc : positive) (n : nat) :
  scan_digits (NilEmpty.string_of_uint d) (Z.pos acc) n false =
  Some (Z.pos (Pos.of_uint_acc d acc), (n + nb_digits d)%nat, false,
        EmptyString).
Proof.
  revert acc n.
  induction d; intros acc n; cbn [NilEmpty.string_of_uint nb_digits
    Pos.of_uint_acc scan_digits];
    try (rewrite Nat.add_0_r; reflexivity);
    change (is_digit _) with true; cbv iota;
    match goal with
    | |- scan_digits _ ?a _ _ = Some (Z.pos (Pos.of_uint_acc _ ?b), _, _, _) =>
        replace a with (Z.pos b)
          by (match goal with
              | |- context [digit_value ?c] =>
                  let v := eval vm_compute in (digit_value c) in
                  change (digit_value c) with v
              end; lia)
    end;
    rewrite IHd; rewrite Nat.add_succ_r; reflexivity.
Qed.

Lemma scan_digits_uint (d : uint) (n : nat) :
  scan_digits (NilEmpty.string_of_uint d) 0 n false =
  Some (Z.of_uint d, (n + nb_digits d)%nat, false, EmptyString).
Proof.
  revert n.
  induction d; intros n; cbn [NilEmpty.string_of_uint nb_digits scan_digits];
    try (rewrite Nat.add_0_r; reflexivity);
    change (is_digit _) with true; cbv iota;
    rewrite Nat.add_succ_r.
  - change (10 * 0 + digit_value "0") with 0. rewrite IHd. reflexivity.
  - change (10 * 0 + digit_value "1") with (Z.pos 1).
    rewrite scan_digits_uint_acc. reflexivity.
  - change (10 * 0 + digit_value "2") with (Z.pos 2).
    rewrite scan_digits_uint_acc. reflexivity.
  - change (10 * 0 + digit_value "3") with (Z.pos 3).
    rewrite scan_digits_uint_acc. reflexivity.
  - change (10 * 0 + digit_value "4") with (Z.pos 4).
    rewrite scan_digits_uint_acc. reflexivity.
  - change (10 * 0 + digit_value "5") with (Z.pos 5).
    rewrite scan_digits_uint_acc. reflexivity.
  - change (10 * 0 + digit_value "6") with (Z.pos 6).
    rewrite scan_digits_uint_acc. reflexivity.
  - change (10 * 0 + digit_value "7") with (Z.pos 7).
    rewrite scan_digits_uint_acc. reflexivity.
  - change (10 * 0 + digit_value "8") with (Z.pos 8).
    rewrite scan_digits_uint_acc. reflexivity.
  - change (10 * 0 + digit_value "9") with (Z.pos 9).
    rewrite scan_digits_uint_acc. reflexivity.
Qed.

(** A non-empty run of decimal digits starts with a digit. *)
Lemma string_of_uint_head (d : uint) :
  d <> Nil ->
  exists c s, NilEmpty.string_of_uint d = String c s /\ is_digit c = true.
Proof.
  destruct d; intros H; try congruence; cbn [NilEmpty.string_of_uint];
    eexists; eexists; (split; [reflexivity | reflexivity]).
Qed.

Lemma digit_is_plain (c : ascii) :
  is_digit c = true ->
  is_space c = false /\ Ascii.eqb c "+" = false /\ Ascii.eqb c "-" = false /\
  Ascii.eqb c "_" = false.
Proof.
  destruct c as [[|] [|] [|] [|] [|] [|] [|] [|]]; cbn;
    intros H; try discriminate H; repeat split.
Qed.

(** The parser reads back an unsigned decimal literal, leading zeros
    included. *)
Lemma long_from_string_uint (d : uint) :
  d <> Nil -> PyLong_FromString (NilEmpty.string_of_uint d) = Ok (Z.of_uint d).
Proof.
  intros Hd.
  destruct (string_of_uint_head d Hd) as (c & s & Hs & Hc).
  destruct (digit_is_plain c Hc) as (Hsp & Hplus & Hminus & Hus).
  unfold PyLong_FromString. rewrite Hs. cbn [skip_space]. rewrite Hsp.
  cbn [read_sign]. rewrite Hplus, Hminus.
  cbn [starts_with_underscore]. rewrite Hus.
  rewrite <- Hs, scan_digits_uint. cbn [Nat.add].
  destruct (nb_digits d) eqn:Hn.
  - apply DecimalFacts.nb_digits_0 in Hn. contradiction.
  - cbn [Nat.eqb skip_space]. f_equal; lia.
Qed.

(** ... and a negative one. *)
Lemma long_from_string_neg_uint (d : uint) :
  d <> Nil ->
  PyLong_FromString (String "-" (NilEmpty.string_of_uint d)) =
  Ok (- Z.of_uint d).
Proof.
  intros Hd.
  destruct (string_of_uint_head d Hd) as (c & s & Hs & Hc).
  destruct (digit_is_plain c Hc) as (Hsp & Hplus & Hminus & Hus).
  unfold PyLong_FromString. cbn [skip_space].
  change (is_space "-") with false.
  cbv iota. cbn [read_sign]. change (Ascii.eqb "-" "+") with false.
  change (Ascii.eqb "-" "-") with true. cbv iota.
  rewrite Hs. cbn [starts_with_underscore]. rewrite Hus.
  rewrite <- Hs, scan_digits_uint. cbn [Nat.add].
  destruct (nb_digits d) eqn:Hn.
  - apply DecimalFacts.nb_digits_0 in Hn. contradiction.
  - cbn [Nat.eqb skip_space]. f_equal; lia.
Qed.

(** An ASCII string goes to the parser as it is. *)
Lemma py_int_str_ascii (s : string) :
  string_is_ascii s = true -> py_int_str s = PyLong_FromString s.
Proof. intros H. unfold py_int_str. now rewrite H. Qed.

Lemma uint_string_is_ascii (d : uint) :
  string_is_ascii (NilEmpty.string_of_uint d) = true.
Proof.
  induction d; cbn [NilEmpty.string_of_uint string_is_ascii];
    [reflexivity | rewrite IHd; reflexivity ..].
Qed.

(** [int(str(z)) == z] *)
Lemma py_int_str_py_str (z : Z) : py_int_str (py_str (VInt z)) = Ok z.
Proof.
  rewrite <- (DecimalZ.of_to z) at 2.
  destruct z as [|p|p]; cbn [py_str Z.to_int NilZero.string_of_int Z.of_int].
  - reflexivity.
  - assert (Hp := Unsigned.to_uint_nonnil p).
    replace (NilZero.string_of_uint (Pos.to_uint p))
      with (NilEmpty.string_of_uint (Pos.to_uint p))
      by (destruct (Pos.to_uint p); [contradiction | reflexivity ..]).
    rewrite py_int_str_ascii by apply uint_string_is_ascii.
    now apply long_from_string_uint.
  - assert (Hp := Unsigned.to_uint_nonnil p).
    replace (NilZero.string_of_uint (Pos.to_uint p))
      with (NilEmpty.string_of_uint (Pos.to_uint p))
      by (destruct (Pos.to_uint p); [contradiction | reflexivity ..]).
    rewrite py_int_str_ascii
      by (cbn [string_is_ascii]; now rewrite uint_string_is_ascii).
    now apply long_from_string_neg_uint.
Qed.

(** [str] is injective on integers. *)
Lemma py_str_int_inj (z z' : Z) : py_str (VInt z) = py_str (VInt z') -> z = z'.
Proof.
  intros H.
  assert (E : py_int_str (py_str (VInt z)) = py_int_str (py_str (VInt z')))
    by now rewrite H.
  rewrite !py_int_str_py_str in E. now injection E.
Qed.

(** ** What the parser accepts *)

Lemma all_chars_impl (p q : ascii -> bool) (s : string) :
  (forall c, p c = true -> q c = true) ->
  all_chars p s = true -> all_chars q s = true.
Proof.
  intros Hpq. induction s as [|c s IH]; cbn; [reflexivity|].
  rewrite !andb_true_iff. intros [Hc Hs]. auto.
Qed.

Lemma skip_space_suffix (p : ascii -> bool) (s : string) :
  all_chars p s = true -> all_chars p (skip_space s) = true.
Proof.
  induction s as [|c s IH]; cbn; [reflexivity|].
  rewrite andb_true_iff. intros [Hc Hs].
  destruct (is_space c); [auto|]. cbn. now rewrite Hc, Hs.
Qed.





Lemma digit_value_nonneg (c : ascii) : is_digit c = true -> 0 <= digit_value c.
Proof.
  unfold is_digit, digit_value. cbv zeta.
  rewrite andb_true_iff, !Nat.leb_le.
  generalize (nat_of_ascii c). intros n Hn. lia.
Qed.

Lemma scan_digits_nonneg (s : string) :
  forall acc n b v n' b' rest,
    0 <= acc -> scan_digits s acc n b = Some (v, n', b', rest) -> 0 <= v.
Proof.
  induction s as [|c s IH]; intros acc n b v n' b' rest Hacc;
    cbn [scan_digits].
  - intros [= <- _ _ _]. exact Hacc.
  - destruct (is_digit c) eqn:Hc.
    { intros H. eapply IH; [|exact H].
      pose proof (digit_value_nonneg c Hc). lia. }
    destruct (Ascii.eqb c "_").
    { destruct b; [discriminate|]. intros H. eapply IH; eassumption. }
    intros [= <- _ _ _]. exact Hacc.
Qed.

(** The pieces of a successful parse. *)
Lemma long_from_string_ok (s : string) (z : Z) :
  PyLong_FromString s = Ok z ->
  exists sign body v n rest,
    read_sign (skip_space s) = (sign, body) /\
    scan_digits body 0 0%nat false = Some (v, n, false, rest) /\
    skip_space rest = EmptyString /\ z = sign * v.
Proof.
  unfold PyLong_FromString.
  destruct (read_sign (skip_space s)) as [sign body] eqn:Hsign.
  destruct (starts_with_underscore body); [discriminate|].
  destruct (scan_digits body 0 0%nat false) as [[[[v n] b] rest]|] eqn:Hscan;
    [|discriminate].
  destruct b; [discriminate|].
  destruct (n =? 0)%nat; [discriminate|].
  destruct (skip_space rest) eqn:Hrest; [|discriminate].
  intros [= <-]. exists sign, body, v, n, rest. auto.
Qed.



Lemma long_from_string_nonneg (s : string) (z : Z) :
  all_chars not_minus s = true -> PyLong_FromString s = Ok z -> 0 <= z.
Proof.
  intros Hs H. apply long_from_string_ok in H.
  destruct H as (sign & body & v & n & rest & Hsign & Hscan & _ & ->).
  apply scan_digits_nonneg in Hscan; [|lia].
  apply skip_space_suffix in Hs.
  destruct (skip_space s) as [|c s']; cbn in Hsign.
  - injection Hsign as <- _. lia.
  - cbn in Hs. apply andb_true_iff in Hs. destruct Hs as [Hc _].
    unfold not_minus in Hc. apply negb_true_iff in Hc. rewrite Hc in Hsign.
    destruct (Ascii.eqb c "+"); injection Hsign as <- _; lia.
Qed.

(** ** Characters outside ASCII *)

Lemma string_length_ind (P : string -> Prop) :
  (forall s, (forall t, (String.length t < String.length s)%nat -> P t) ->
             P s) ->
  forall s, P s.
Proof.
  intros H s.
  assert (G : forall n t, (String.length t < n)%nat -> P t).
  { induction n as [|n IH]; intros t Ht; [lia|].
    apply H. intros u Hu. apply IH. lia. }
  apply (G (S (String.length s))). lia.
Qed.

Lemma string_is_ascii_all (s : string) :
  string_is_ascii s = all_chars is_ascii s.
Proof.
  induction s as [|c s IH]; cbn [string_is_ascii all_chars];
    [reflexivity | now rewrite IH].
Qed.

Lemma find_decimal_digit (runs : list (N * N)) (cp d : N) :
  find_decimal runs cp = Some d -> is_digit (ascii_of_N (48 + d)) = true.
Proof.
  induction runs as [|[start len] runs IH]; cbn [find_decimal];
    [discriminate|].
  destruct ((start <=? cp) && (cp <? start + len))%N; [|exact IH].
  intros [= <-].
  pose proof (N.mod_lt (cp - start) 10 ltac:(discriminate)) as Hlt.
  destruct ((cp - start) mod 10)%N as [|q]; [reflexivity|].
  do 4 (destruct q as [q|q|]; try lia; try reflexivity).
Qed.

(** What one character outside ASCII turns into. *)
Lemma transform_char_cases (cp : N) (rest : string) :
  transform_char cp rest = String " " rest \/
  (exists c, is_digit c = true /\ transform_char cp rest = String c rest) \/
  transform_char cp rest = "?".
Proof.
  unfold transform_char. destruct (Py_UNICODE_ISSPACE cp); [now left|].
  destruct (Py_UNICODE_TODECIMAL cp) as [d|] eqn:Hd; [|now right; right].
  right. left. eexists. split; [|reflexivity].
  eapply find_decimal_digit. exact Hd.
Qed.

Lemma transform_char_keeps (p : ascii -> bool) (cp : N) (rest : string) :
  p " "%char = true -> p "?"%char = true ->
  (forall c, is_digit c = true -> p c = true) ->
  all_chars p rest = true -> all_chars p (transform_char cp rest) = true.
Proof.
  intros Hsp Hq Hd Hrest.
  destruct (transform_char_cases cp rest) as [->|[(c & Hc & ->)| ->]];
    cbn [all_chars].
  - now rewrite Hsp, Hrest.
  - now rewrite (Hd c Hc), Hrest.
  - now rewrite Hq.
Qed.



Ltac split_all_chars H :=
  repeat (cbn [all_chars] in H;
          match type of H with
          | (_ && _) = true => apply andb_true_iff in H; destruct H as [? H]
          end).

(** The characters that the transformation writes are those below 127
    that it reads, spaces, digits and the question mark. *)
Lemma transform_keeps (p : ascii -> bool) :
  p " "%char = true -> p "?"%char = true ->
  (forall c, is_digit c = true -> p c = true) ->
  forall s,
    all_chars p s = true ->
    all_chars p (TransformDecimalAndSpaceToASCII s) = true.
Proof.
  intros Hsp Hq Hd.
  assert (Hend : all_chars p "?" = true) by (cbn; now rewrite Hq).
  induction s as [s IH] using string_length_ind. intros H.
  destruct s as [|b0 s1]; [reflexivity|].
  cbn [TransformDecimalAndSpaceToASCII]. cbv zeta.
  destruct (N_of_ascii b0 <? 127)%N.
  { split_all_chars H. cbn [all_chars]. apply andb_true_iff. split; [auto|].
    apply IH; [cbn; lia | assumption]. }
  destruct (N_of_ascii b0 <? 194)%N; [exact Hend|].
  destruct (N_of_ascii b0 <? 224)%N.
  { destruct s1 as [|b1 s2]; [exact Hend|].
    destruct (continuation b1); [|exact Hend].
    split_all_chars H. apply transform_char_keeps; auto.
    apply IH; [cbn; lia | assumption]. }
  destruct (N_of_ascii b0 <? 240)%N.
  { destruct s1 as [|b1 [|b2 s3]]; try exact Hend.
    destruct (continuation b1); [|exact Hend].
    destruct (continuation b2); [|exact Hend].
    split_all_chars H. apply transform_char_keeps; auto.
    apply IH; [cbn; lia | assumption]. }
  destruct (N_of_ascii b0 <? 248)%N; [|exact Hend].
  destruct s1 as [|b1 [|b2 [|b3 s4]]]; try exact Hend.
  destruct (continuation b1); [|exact Hend].
  destruct (continuation b2); [|exact Hend].
  destruct (continuation b3); [|exact Hend].
  split_all_chars H. apply transform_char_keeps; auto.
  apply IH; [cbn; lia | assumption].
Qed.



(** ** What [int()] accepts *)




(** Without a minus sign, [int()] gives no negative number. *)
Lemma py_int_str_nonneg (s : string) (z : Z) :
  all_chars not_minus s = true -> py_int_str s = Ok z -> 0 <= z.
Proof.
  intros Hs. unfold py_int_str. apply long_from_string_nonneg.
  destruct (string_is_ascii s); [exact Hs|].
  apply transform_keeps; [reflexivity | reflexivity | | exact Hs].
  intros c Hc. unfold not_minus.
  now destruct (digit_is_plain c Hc) as (_ & _ & -> & _).
Qed.

(** ** Quantity normalisation *)

Lemma py_str_int_not_sentinel (z : Z) : py_str (VInt z) <> ">10".
Proof.
  intros E. pose proof (py_int_str_py_str z) as H. rewrite E in H.
  change (py_int_str ">10") with (@Err Z ValueError) in H. discriminate H.
Qed.

(** An [int] cell: only the count one is special. *)
Lemma stock_count_int (k p : pyval) (z : Z) :
  stock_count {| kod := k; kolichestvo := VInt z; tsena := p |} =
  Ok (if z =? 1 then 0 else z).
Proof.
  unfold stock_count. cbn [kolichestvo py_int].
  destruct (String.eqb_spec (py_str (VInt z)) ">10") as [E|_].
  { now apply py_str_int_not_sentinel in E. }
  destruct (String.eqb_spec (py_str (VInt z)) "1") as [E|N].
  - apply (py_str_int_inj z 1) in E. subst z. reflexivity.
  - destruct (Z.eqb_spec z 1) as [->|_]; [|reflexivity].
    exfalso. apply N. reflexivity.
Qed.

Lemma stock_count_none (k p : pyval) :
  stock_count {| kod := k; kolichestvo := VNone; tsena := p |} = Err TypeError.
Proof. reflexivity. Qed.



(** Digits and white space outside ASCII are read as [int()] reads
    them: an Arabic-Indic three, a seven before a no-break space, a
    fullwidth twelve; a letter outside ASCII is refused. *)
Example stock_count_beyond_ascii :
  let row q := {| kod := VStr "a"; kolichestvo := VStr q; tsena := VNone |} in
  stock_count (row "٣") = Ok 3 /\
  stock_count (row (String "7" nbsp)) = Ok 7 /\
  stock_count (row "１２") = Ok 12 /\
  stock_count (row "-٤٢") = Ok (-42) /\
  stock_count (row "١") = Ok 1 /\
  stock_count (row "ж") = Err ValueError /\
  stock_count (row "٣ж") = Err ValueError /\
  stock_count (row "²") = Err ValueError.
Proof. repeat split; vm_compute; reflexivity. Qed.

Example stock_count_samples :
  let row q := {| kod := VStr "a"; kolichestvo := q; tsena := VNone |} in
  stock_count (row (VStr ">10")) = Ok 100 /\
  stock_count (row (VStr "1")) = Ok 0 /\
  stock_count (row (VStr "7")) = Ok 7 /\
  stock_count (row (VStr "abc")) = Err ValueError /\
  stock_count (row (VStr " 1")) = Ok 1 /\
  stock_count (row (VStr "-5")) = Ok (-5) /\
  stock_count (row (VInt 1)) = Ok 0 /\
  stock_count (row (VInt 12)) = Ok 12.
Proof. repeat split; reflexivity. Qed.

Example py_int_samples :
  py_int_str " -1_000 " = Ok (-1000) /\ py_int_str "abc" = Err ValueError /\
  py_int_str "1__0" = Err ValueError /\ py_int_str EmptyString = Err ValueError /\
  py_int_str "- 5" = Err ValueError /\ py_int_str "007" = Ok 7 /\
  py_str (VInt (-45)) = "-45" /\ py_str (VInt 0) = "0".
Proof. repeat split; reflexivity. Qed.

(** A quantity without a minus sign gives no negative stock. *)
Lemma stock_count_nonneg (w : watch) (n : Z) :
  no_minus_sign (kolichestvo w) = true -> stock_count w = Ok n -> 0 <= n.
Proof.
  destruct w as [k q p]. cbn [kolichestvo]. destruct q as [|z|s].
  - discriminate.
  - rewrite stock_count_int. cbn [no_minus_sign]. intros Hz [= <-].
    apply Z.leb_le in Hz. destruct (z =? 1); lia.
  - cbn [no_minus_sign]. unfold stock_count. cbn [kolichestvo py_str py_int].
    intros Hs.
    destruct (String.eqb s ">10"); [intros [= <-]; lia|].
    destruct (String.eqb s "1"); [intros [= <-]; lia|].
    now apply py_int_str_nonneg.
Qed.

(** ** Membership and removal *)

Lemma py_in_In (x : string) (l : list string) : py_in x l = true <-> In x l.
Proof.
  unfold py_in. rewrite existsb_exists. split.
  - intros (y & Hy & E). apply String.eqb_eq in E. now subst.
  - intros H. exists x. split; [exact H | apply String.eqb_refl].
Qed.

Lemma py_in_not_In (x : string) (l : list string) :
  py_in x l = false <-> ~ In x l.
Proof.
  rewrite <- py_in_In. destruct (py_in x l); split; congruence.
Qed.

Lemma py_in_cons (x y : string) (l : list string) :
  py_in x (y :: l) = String.eqb x y || py_in x l.
Proof. reflexivity. Qed.

Lemma py_in_ext (x : string) (l l' : list string) :
  (In x l <-> In x l') -> py_in x l = py_in x l'.
Proof.
  intros H. destruct (py_in x l') eqn:E.
  - apply py_in_In, H, py_in_In, E.
  - apply py_in_not_In. rewrite H. now apply py_in_not_In.
Qed.

Lemma py_in_filter (x : string) (f : string -> bool) (l : list string) :
  py_in x (filter f l) = py_in x l && f x.
Proof.
  destruct (py_in x l && f x) eqn:E.
  - apply andb_true_iff in E. destruct E as [E1 E2].
    apply py_in_In, filter_In. split; [now apply py_in_In | exact E2].
  - apply py_in_not_In. rewrite filter_In. intros [H1 H2].
    apply py_in_In in H1. rewrite H1, H2 in E. discriminate E.
Qed.

(** [remove] succeeds on a member, and takes out one occurrence. *)
Lemma py_remove_ok (x : string) (l : list string) :
  In x l ->
  exists l', py_remove x l = Ok l' /\ Permutation (x :: l') l.
Proof.
  induction l as [|y l IH]; cbn; [contradiction|].
  intros H. destruct (String.eqb_spec y x) as [->|N].
  - exists l. split; reflexivity.
  - destruct H as [H|H]; [contradiction|].
    destruct (IH H) as (l' & -> & P). exists (y :: l'). split; [reflexivity|].
    rewrite perm_swap. now constructor.
Qed.

Lemma py_remove_incl (x : string) (l l' : list string) :
  py_remove x l = Ok l' -> forall y, In y l' -> In y l.
Proof.
  revert l'. induction l as [|y0 l IH]; cbn; intros l'; [discriminate|].
  destruct (String.eqb y0 x).
  - intros [= <-] y H. now right.
  - destruct (py_remove x l) as [r|e]; [|discriminate].
    intros [= <-] y [H|H]; [now left | right; now apply (IH r)].
Qed.

Lemma py_remove_keeps (x : string) (l l' : list string) :
  py_remove x l = Ok l' -> forall y, y <> x -> In y l -> In y l'.
Proof.
  revert l'. induction l as [|y0 l IH]; cbn; intros l'; [discriminate|].
  destruct (String.eqb_spec y0 x) as [->|N].
  - intros [= <-] y Hy [H|H]; [congruence | exact H].
  - destruct (py_remove x l) as [r|e]; [|discriminate].
    intros [= <-] y Hy [H|H]; [now left | right; now apply (IH r)].
Qed.

(** On a list without duplicates, [remove] leaves no occurrence. *)
Lemma py_remove_NoDup (x : string) (l : list string) :
  NoDup l -> In x l ->
  py_remove x l = Ok (filter (fun y => negb (String.eqb y x)) l).
Proof.
  induction l as [|y l IH]; cbn; [contradiction|].
  intros Hnd H. inversion Hnd as [|? ? Hy Hl]; subst.
  destruct (String.eqb_spec y x) as [->|N]; cbn.
  - f_equal. symmetry. apply forallb_filter_id. apply forallb_forall.
    intros z Hz. destruct (String.eqb_spec z x) as [->|_]; [contradiction|].
    reflexivity.
  - destruct H as [H|H]; [contradiction|]. now rewrite IH.
Qed.

Lemma filter_not_in_cons (c : string) (seen l : list string) :
  filter (fun y => negb (String.eqb y c))
    (filter (fun i => negb (py_in i seen)) l) =
  filter (fun i => negb (py_in i (c :: seen))) l.
Proof.
  induction l as [|i l IH]; cbn [filter]; [reflexivity|].
  rewrite py_in_cons, negb_orb.
  destruct (py_in i seen); cbn [negb filter].
  - now rewrite andb_false_r.
  - rewrite andb_true_r. destruct (String.eqb i c); cbn [negb];
      [|f_equal]; exact IH.
Qed.

Lemma seller_decision_ok (w : watch) (n : Z) :
  stock_count w = Ok n ->
  seller_decision w = {| Seller.offer_id := code w; Seller.stock := n |}.
Proof. intros H. unfold seller_decision, stock_or_zero. now rewrite H. Qed.

(** ** The matching pass of [create_stocks] *)

Section SellerLoop.

Import Seller.

(** The loop over a concatenated feed is the loop over its second part,
    started where the first part ends. *)
Lemma create_stocks_loop_app (xs ys : list watch) :
  forall acc ids,
    create_stocks_loop (xs ++ ys) acc ids =
    match create_stocks_loop xs acc ids with
    | (Ok acc', ids') => create_stocks_loop ys acc' ids'
    | (Err e, ids') => (Err e, ids')
    end.
Proof.
  induction xs as [|w xs IH]; intros acc ids; cbn [List.app create_stocks_loop];
    [reflexivity|].
  destruct (py_in (py_str (kod w)) ids); [|apply IH].
  destruct (stock_count w); [|reflexivity].
  destruct (py_remove (py_str (kod w)) ids); [apply IH | reflexivity].
Qed.

(** The working list only shrinks, and keeps having no duplicates. *)
Lemma create_stocks_loop_incl (ws : list watch) :
  forall acc ids r ids',
    create_stocks_loop ws acc ids = (r, ids') ->
    (forall y, In y ids' -> In y ids) /\ (NoDup ids -> NoDup ids').
Proof.
  induction ws as [|w ws IH]; intros acc ids r ids'; cbn [create_stocks_loop].
  - intros [= _ <-]. auto.
  - destruct (py_in (py_str (kod w)) ids) eqn:Hin; [|apply IH].
    destruct (stock_count w) as [n|e]; [|intros [= _ <-]; auto].
    destruct (py_remove (py_str (kod w)) ids) as [l|e] eqn:Hrm;
      [|intros [= _ <-]; auto].
    intros H. apply IH in H. destruct H as [H1 H2]. split.
    + intros y Hy. eapply py_remove_incl; eauto.
    + intros Hnd. apply H2. apply py_in_In in Hin.
      rewrite (py_remove_NoDup _ _ Hnd Hin) in Hrm. injection Hrm as <-.
      now apply NoDup_filter.
Qed.

(** An id that no row carries stays in the working list. *)
Lemma create_stocks_loop_keeps (ws : list watch) :
  forall acc ids stocks ids' y,
    create_stocks_loop ws acc ids = (Ok stocks, ids') ->
    In y ids -> ~ In y (map code ws) -> In y ids'.
Proof.
  induction ws as [|w ws IH]; intros acc ids stocks ids' y;
    cbn [create_stocks_loop map].
  - intros [= _ <-]. auto.
  - intros H Hy Hn.
    assert (y <> code w /\ ~ In y (map code ws)) as [N Hn'].
    { split; intros E; apply Hn; [left; now rewrite E | now right]. }
    destruct (py_in (py_str (kod w)) ids); [|eauto].
    destruct (stock_count w) as [n|e]; [|discriminate H].
    destruct (py_remove (py_str (kod w)) ids) as [l|e] eqn:Hrm;
      [|discriminate H].
    eapply IH; eauto. eapply py_remove_keeps; eauto.
Qed.

(** The local [stocks] only grows, and what it gains is what the working
    list loses. *)
Lemma create_stocks_loop_perm (ws : list watch) :
  forall acc ids stocks ids',
    create_stocks_loop ws acc ids = (Ok stocks, ids') ->
    (exists more, stocks = acc ++ more) /\
    Permutation (map offer_id stocks ++ ids') (map offer_id acc ++ ids).
Proof.
  induction ws as [|w ws IH]; intros acc ids stocks ids';
    cbn [create_stocks_loop].
  - intros [= <- <-]. split; [exists []; now rewrite app_nil_r | reflexivity].
  - destruct (py_in (py_str (kod w)) ids) eqn:Hin; [|apply IH].
    destruct (stock_count w) as [n|e]; [|discriminate].
    apply py_in_In in Hin. destruct (py_remove_ok _ _ Hin) as (l & -> & P).
    intros H. apply IH in H. destruct H as [(more & ->) H]. split.
    + eexists. rewrite <- app_assoc. reflexivity.
    + rewrite H, map_app, <- app_assoc. cbn [map List.app offer_id].
      apply Permutation_app_head. exact P.
Qed.

(** With known offer ids free of duplicates, the pass honours exactly the
    rows of [matched], and leaves the ids that none of the rows read so
    far carries. *)
Lemma create_stocks_loop_spec (ids0 : list string) :
  NoDup ids0 ->
  forall ws seen acc,
    (forall w, In w (matched seen ws ids0) -> exists n, stock_count w = Ok n) ->
    create_stocks_loop ws acc
      (filter (fun i => negb (py_in i seen)) ids0) =
    (Ok (acc ++ map seller_decision (matched seen ws ids0)),
     filter (fun i => negb (py_in i (List.rev (map code ws) ++ seen))) ids0).
Proof.
  intros Hnd. induction ws as [|w ws IH]; intros seen acc Hok;
    cbn [create_stocks_loop matched map List.rev List.app].
  - now rewrite app_nil_r.
  - fold (code w). rewrite py_in_filter. cbn [matched] in Hok.
    destruct (py_in (code w) ids0 && negb (py_in (code w) seen)) eqn:Hm.
    + destruct (Hok w (or_introl eq_refl)) as (n & Hn). rewrite Hn.
      apply andb_true_iff in Hm. destruct Hm as [Hin Hseen].
      rewrite py_remove_NoDup;
        [| now apply NoDup_filter
         | apply filter_In; split; [now apply py_in_In | exact Hseen]].
      replace (filter (fun y => negb (String.eqb y (code w)))
                 (filter (fun i => negb (py_in i seen)) ids0))
        with (filter (fun i => negb (py_in i (code w :: seen))) ids0).
      2:{ symmetry. apply filter_not_in_cons. }
      rewrite IH by (intros w' Hw'; apply Hok; now right).
      rewrite <- !app_assoc. cbn [List.app].
      cbn [map]. rewrite (seller_decision_ok w n Hn). reflexivity.
    + replace (filter (fun i => negb (py_in i seen)) ids0)
        with (filter (fun i => negb (py_in i (code w :: seen))) ids0).
      2:{ apply filter_ext_in. intros i Hi. rewrite py_in_cons.
          destruct (String.eqb_spec i (code w)) as [->|_]; [|reflexivity].
          apply py_in_In in Hi. rewrite Hi in Hm. cbn in Hm.
          apply negb_false_iff in Hm. now rewrite Hm. }
      rewrite IH by exact Hok. now rewrite <- !app_assoc.
Qed.

End SellerLoop.

(** ** [create_stocks] *)

(** market.py runs the same pass as seller.py and wraps each decision in
    its own entry format. *)
Lemma market_create_stocks_loop_sim (warehouse_id date : string)
    (ws : list watch) :
  forall acc ids,
    Market.create_stocks_loop ws (map (to_market warehouse_id date) acc) ids
      warehouse_id date =
    (result_map (map (to_market warehouse_id date))
       (fst (Seller.create_stocks_loop ws acc ids)),
     snd (Seller.create_stocks_loop ws acc ids)).
Proof.
  induction ws as [|w ws IH]; intros acc ids;
    cbn [Market.create_stocks_loop Seller.create_stocks_loop];
    [reflexivity|].
  destruct (py_in (py_str (kod w)) ids); [|apply IH].
  destruct (stock_count w) as [n|e]; [|reflexivity].
  destruct (py_remove (py_str (kod w)) ids) as [l|e]; [|reflexivity].
  rewrite <- IH, map_app. reflexivity.
Qed.

Lemma market_create_stocks_sim (warehouse_id date : string)
    (ws : list watch) (ids : list string) :
  Market.create_stocks ws ids warehouse_id date =
  (result_map (map (to_market warehouse_id date))
     (fst (Seller.create_stocks ws ids)),
   snd (Seller.create_stocks ws ids)).
Proof.
  unfold Market.create_stocks, Seller.create_stocks.
  pose proof (market_create_stocks_loop_sim warehouse_id date ws [] ids) as H.
  cbn [map] in H. rewrite H.
  destruct (Seller.create_stocks_loop ws [] ids) as [[s|e] ids'];
    cbn [fst snd result_map]; [|reflexivity].
  rewrite map_app, map_map. reflexivity.
Qed.

(** When every quantity normalises, the pass ends without an
    exception. *)
Lemma create_stocks_loop_total (ws : list watch) :
  (forall w, In w ws -> exists n, stock_count w = Ok n) ->
  forall acc ids,
    exists stocks ids', Seller.create_stocks_loop ws acc ids = (Ok stocks, ids').
Proof.
  induction ws as [|w ws IH]; intros Hok acc ids;
    cbn [Seller.create_stocks_loop]; [eauto|].
  assert (Hws : forall w', In w' ws -> exists n, stock_count w' = Ok n)
    by (intros w' Hw'; apply Hok; now right).
  destruct (py_in (py_str (kod w)) ids) eqn:Hin; [|now apply IH].
  destruct (Hok w (or_introl eq_refl)) as (n & ->).
  apply py_in_In in Hin. destruct (py_remove_ok _ _ Hin) as (l & -> & _).
  now apply IH.
Qed.

(** Every decision of the pass is that of a row of the feed. *)
Lemma create_stocks_loop_Forall (P : Seller.stock_entry -> Prop)
    (ws : list watch) :
  (forall w n, In w ws -> stock_count w = Ok n ->
     P {| Seller.offer_id := code w; Seller.stock := n |}) ->
  forall acc ids stocks ids',
    Forall P acc ->
    Seller.create_stocks_loop ws acc ids = (Ok stocks, ids') ->
    Forall P stocks.
Proof.
  induction ws as [|w ws IH]; intros HP acc ids stocks ids' Hacc;
    cbn [Seller.create_stocks_loop].
  - now intros [= <- _].
  - assert (HP' : forall w' n, In w' ws -> stock_count w' = Ok n ->
              P {| Seller.offer_id := code w'; Seller.stock := n |})
      by (intros w' n Hw'; apply HP; now right).
    destruct (py_in (py_str (kod w)) ids); [|now apply IH].
    destruct (stock_count w) as [n|e] eqn:Hn; [|discriminate].
    destruct (py_remove (py_str (kod w)) ids) as [l|e]; [|discriminate].
    apply IH; [exact HP'|]. apply Forall_app. split; [exact Hacc|].
    constructor; [|constructor]. apply HP; [now left | exact Hn].
Qed.

Lemma unmatched_rev (ws : list watch) (ids : list string) :
  filter (fun i => negb (py_in i (List.rev (map code ws) ++ []))) ids =
  unmatched ws ids.
Proof.
  unfold unmatched. apply filter_ext. intros i. f_equal.
  apply py_in_ext. rewrite app_nil_r. symmetry. apply in_rev.
Qed.

(** The whole of [create_stocks] on known offer ids free of duplicates:
    the matched rows in feed order, then a zero for every id left, and the
    caller's list reduced to those ids. *)
Lemma create_stocks_spec (ws : list watch) (ids : list string) :
  NoDup ids ->
  (forall w, In w (matched [] ws ids) -> exists n, stock_count w = Ok n) ->
  Seller.create_stocks ws ids =
  (Ok (map seller_decision (matched [] ws ids) ++
       map seller_zero (unmatched ws ids)),
   unmatched ws ids).
Proof.
  intros Hnd Hok. unfold Seller.create_stocks.
  pose proof (create_stocks_loop_spec ids Hnd ws [] [] Hok) as H.
  cbn [py_in existsb negb] in H.
  rewrite (forallb_filter_id (fun _ => true) ids) in H
    by (apply forallb_forall; reflexivity).
  rewrite H, unmatched_rev. reflexivity.
Qed.

(** The rows that are honoured are rows of the feed, in feed order. *)
Lemma matched_app (xs ys : list watch) (ids : list string) :
  forall seen,
    matched seen (xs ++ ys) ids =
    matched seen xs ids ++ matched (List.rev (map code xs) ++ seen) ys ids.
Proof.
  induction xs as [|w xs IH]; intros seen; cbn [List.app matched map List.rev];
    [reflexivity|].
  rewrite <- app_assoc. cbn [List.app].
  destruct (py_in (code w) ids && negb (py_in (code w) seen));
    cbn [List.app]; now rewrite IH.
Qed.

Lemma matched_In (ws : list watch) (ids : list string) :
  forall seen w, In w (matched seen ws ids) -> In w ws /\ In (code w) ids.
Proof.
  induction ws as [|w0 ws IH]; intros seen w; cbn [matched];
    [contradiction|].
  destruct (py_in (code w0) ids && negb (py_in (code w0) seen)) eqn:E.
  - intros [<-|H].
    + apply andb_true_iff in E. destruct E as [E _].
      split; [now left | now apply py_in_In].
    + apply IH in H. destruct H. split; [now right | assumption].
  - intros H. apply IH in H. destruct H. split; [now right | assumption].
Qed.

(** One decision per element of the known offer ids, whatever the
    feed. *)
Lemma create_stocks_perm (ws : list watch) (ids ids' : list string)
    (stocks : list Seller.stock_entry) :
  Seller.create_stocks ws ids = (Ok stocks, ids') ->
  Permutation (map Seller.offer_id stocks) ids.
Proof.
  unfold Seller.create_stocks.
  destruct (Seller.create_stocks_loop ws [] ids) as [[s|e] l] eqn:Hloop;
    [|discriminate].
  intros [= <- <-]. apply create_stocks_loop_perm in Hloop.
  destruct Hloop as [_ P]. cbn [map List.app] in P.
  rewrite map_app, map_map. cbn [Seller.offer_id]. now rewrite map_id.
Qed.

Lemma NoDup_map_inj {A B : Type} (f : A -> B) (l : list A) (a b : A) :
  NoDup (map f l) -> In a l -> In b l -> f a = f b -> a = b.
Proof.
  induction l as [|x l IH]; cbn [map]; [contradiction|].
  intros Hnd Ha Hb E. inversion Hnd as [|? ? Hx Hl]; subst.
  destruct Ha as [->|Ha], Hb as [->|Hb]; auto.
  - exfalso. apply Hx. rewrite E. now apply in_map.
  - exfalso. apply Hx. rewrite <- E. now apply in_map.
Qed.

(** C1.  Reconciliation completeness and order: for known offer ids free
    of duplicates and a feed whose quantities all normalise,
    [create_stocks] (of seller.py, and of market.py in its own entry
    format) returns the decisions of the matched rows in feed order
    followed by a zero-stock decision for every unmatched id in the order
    of the offer ids; the offer ids of the decisions are a permutation of
    the known offer ids and hold no duplicate. *)
Theorem create_stocks_complete_ordered (ws : list watch) (ids : list string) :
  NoDup ids ->
  (forall w, In w ws -> exists n, stock_count w = Ok n) ->
  let stocks :=
    map seller_decision (matched [] ws ids) ++
    map seller_zero (unmatched ws ids) in
  fst (Seller.create_stocks ws ids) = Ok stocks /\
  (forall warehouse_id date,
     fst (Market.create_stocks ws ids warehouse_id date) =
     Ok (map (to_market warehouse_id date) stocks)) /\
  Permutation (map Seller.offer_id stocks) ids /\
  NoDup (map Seller.offer_id stocks) /\
  (forall warehouse_id date,
     map Market.sku (map (to_market warehouse_id date) stocks) =
     map Seller.offer_id stocks).
Proof.
  intros Hnd Hok stocks.
  assert (Hspec : Seller.create_stocks ws ids = (Ok stocks, unmatched ws ids)).
  { apply create_stocks_spec; [exact Hnd|].
    intros w Hw. apply Hok. now apply (matched_In ws ids [] w). }
  assert (P : Permutation (map Seller.offer_id stocks) ids)
    by (eapply create_stocks_perm; exact Hspec).
  repeat split.
  - now rewrite Hspec.
  - intros warehouse_id date.
    now rewrite market_create_stocks_sim, Hspec.
  - exact P.
  - apply (Permutation_NoDup (Permutation_sym P) Hnd).
  - intros warehouse_id date. rewrite map_map. reflexivity.
Qed.

Lemma create_stocks_complete_ordered_witness :
  fst (Seller.create_stocks
         [{| kod := VStr "123"; kolichestvo := VStr ">10";
             tsena := VStr "5990.00" |}]
         ["123"; "456"]) =
  Ok [{| Seller.offer_id := "123"; Seller.stock := 100 |};
      {| Seller.offer_id := "456"; Seller.stock := 0 |}].
Proof.
  refine (proj1 (create_stocks_complete_ordered _ _ _ _)).
  - repeat constructor; cbn; intuition discriminate.
  - intros w [<-|[]]. exists 100. reflexivity.
Defined.

(** ** Rows that share a code *)

Lemma create_stocks_loop_skip (w : watch) (ws : list watch)
    (acc : list Seller.stock_entry) (ids : list string) :
  ~ In (code w) ids ->
  Seller.create_stocks_loop (w :: ws) acc ids =
  Seller.create_stocks_loop ws acc ids.
Proof.
  intros H. apply py_in_not_In in H. cbn [Seller.create_stocks_loop].
  fold (code w). now rewrite H.
Qed.

(** Once a row with the code [c] has gone through the pass, [c] is no
    longer in the working list. *)
Lemma create_stocks_loop_consumes (w : watch) (ws : list watch)
    (acc stocks : list Seller.stock_entry) (ids ids' : list string) :
  NoDup ids ->
  Seller.create_stocks_loop (w :: ws) acc ids = (Ok stocks, ids') ->
  ~ In (code w) ids'.
Proof.
  intros Hnd. cbn [Seller.create_stocks_loop]. fold (code w).
  destruct (py_in (code w) ids) eqn:Hin.
  - destruct (stock_count w) as [n|e]; [|discriminate].
    apply py_in_In in Hin. rewrite (py_remove_NoDup _ _ Hnd Hin).
    intros H Hc. apply create_stocks_loop_incl in H. destruct H as [H _].
    apply H, filter_In in Hc. destruct Hc as [_ Hc].
    now rewrite String.eqb_refl in Hc.
  - intros H Hc. apply create_stocks_loop_incl in H. destruct H as [H _].
    apply H in Hc. apply py_in_not_In in Hin. contradiction.
Qed.

(** A later row with the code of an earlier one changes nothing. *)
Lemma create_stocks_loop_duplicate (pre mid post : list watch)
    (w1 w2 : watch) (ids : list string) :
  NoDup ids -> code w2 = code w1 ->
  Seller.create_stocks_loop (pre ++ w1 :: mid ++ w2 :: post) [] ids =
  Seller.create_stocks_loop (pre ++ w1 :: mid ++ post) [] ids.
Proof.
  intros Hnd Hc.
  rewrite !create_stocks_loop_app.
  destruct (Seller.create_stocks_loop pre [] ids) as [[a1|e] i1] eqn:Hpre;
    [|reflexivity].
  apply create_stocks_loop_incl in Hpre. destruct Hpre as [_ Hnd1].
  change (w1 :: mid ++ w2 :: post) with ((w1 :: mid) ++ w2 :: post).
  change (w1 :: mid ++ post) with ((w1 :: mid) ++ post).
  rewrite !create_stocks_loop_app.
  destruct (Seller.create_stocks_loop (w1 :: mid) a1 i1)
    as [[a2|e] i2] eqn:Hmid; [|reflexivity].
  apply create_stocks_loop_consumes in Hmid; [|auto].
  apply create_stocks_loop_skip. now rewrite Hc.
Qed.

(** The first row of the feed with a known code: when the call returns,
    its decision is in the result, it is the only decision for that id,
    and the id has left the caller's list. *)
Lemma first_row_decision (pre rest : list watch) (w1 : watch)
    (ids ids' : list string) (stocks : list Seller.stock_entry) :
  NoDup ids ->
  In (code w1) ids ->
  ~ In (code w1) (map code pre) ->
  Seller.create_stocks (pre ++ w1 :: rest) ids = (Ok stocks, ids') ->
  exists n,
    stock_count w1 = Ok n /\
    In {| Seller.offer_id := code w1; Seller.stock := n |} stocks /\
    (forall e, In e stocks -> Seller.offer_id e = code w1 ->
               e = {| Seller.offer_id := code w1; Seller.stock := n |}) /\
    ~ In (code w1) ids'.
Proof.
  intros Hnd Hin Hpre H.
  assert (P := create_stocks_perm _ _ _ _ H).
  assert (Hnd' : NoDup (map Seller.offer_id stocks))
    by apply (Permutation_NoDup (Permutation_sym P) Hnd).
  revert H. unfold Seller.create_stocks.
  rewrite create_stocks_loop_app.
  destruct (Seller.create_stocks_loop pre [] ids) as [[a1|e] i1] eqn:H1.
  2:{ intros H. discriminate H. }
  assert (Hin1 : In (code w1) i1)
    by (eapply create_stocks_loop_keeps; eauto).
  assert (Hnd1 : NoDup i1)
    by (apply create_stocks_loop_incl in H1; now apply H1).
  destruct (Seller.create_stocks_loop (w1 :: rest) a1 i1)
    as [[s|e] i2] eqn:H2; [|discriminate].
  intros [= <- <-].
  assert (Hout : ~ In (code w1) i2)
    by (eapply create_stocks_loop_consumes; eauto).
  revert H2. cbn [Seller.create_stocks_loop]. fold (code w1).
  apply py_in_In in Hin1. rewrite Hin1. apply py_in_In in Hin1.
  destruct (stock_count w1) as [n|e]; [|intros H; discriminate H].
  destruct (py_remove_ok _ _ Hin1) as (l & -> & _).
  intros H2. exists n. split; [reflexivity|].
  apply create_stocks_loop_perm in H2. destruct H2 as [(more & ->) _].
  assert (Hmem : In {| Seller.offer_id := code w1; Seller.stock := n |}
                   (((a1 ++ [{| Seller.offer_id := code w1;
                                Seller.stock := n |}]) ++ more) ++
                    map (fun i => {| Seller.offer_id := i;
                                     Seller.stock := 0 |}) i2)).
  { apply in_or_app. left. apply in_or_app. left. apply in_or_app. right.
    now left. }
  split; [exact Hmem|]. split; [|exact Hout].
  intros e0 He0 Hid.
  apply (NoDup_map_inj Seller.offer_id _ _ _ Hnd' He0 Hmem). exact Hid.
Qed.

(** The same for the entries of market.py. *)
Lemma first_row_market_decision (pre rest : list watch) (w1 : watch)
    (ids ids' : list string) (warehouse_id date : string)
    (stocks : list Market.stock_entry) :
  NoDup ids ->
  In (code w1) ids ->
  ~ In (code w1) (map code pre) ->
  Market.create_stocks (pre ++ w1 :: rest) ids warehouse_id date =
  (Ok stocks, ids') ->
  exists n,
    stock_count w1 = Ok n /\
    In (Market.stock_of warehouse_id date (code w1) n) stocks /\
    (forall e, In e stocks -> Market.sku e = code w1 ->
               e = Market.stock_of warehouse_id date (code w1) n) /\
    ~ In (code w1) ids'.
Proof.
  intros Hnd Hin Hpre. rewrite market_create_stocks_sim.
  destruct (Seller.create_stocks (pre ++ w1 :: rest) ids)
    as [[s|e] i] eqn:H; cbn [fst snd result_map]; [|discriminate].
  intros [= <- <-].
  destruct (first_row_decision pre rest w1 ids i s Hnd Hin Hpre H)
    as (n & Hn & Hmem & Huniq & Hout).
  exists n. split; [exact Hn|]. split; [|split; [|exact Hout]].
  - apply (in_map (to_market warehouse_id date)) in Hmem. exact Hmem.
  - intros e He Hsku. apply in_map_iff in He. destruct He as (e0 & <- & He0).
    now rewrite (Huniq e0 He0 Hsku).
Qed.

(** C5.  Duplicate-code quirk.  The known offer ids form a set, which the
    hypothesis [NoDup ids] states: with an id listed twice, [remove]
    takes out one occurrence and a second row is honoured as well.  Two
    rows [w1] and [w2] of the feed share a code that is a known offer id,
    and [w1] is the first row of the feed with that code.  Then, in
    seller.py and in market.py alike:
    - the later row is ignored: the result and the caller's list are
      those of the feed without it, whatever its quantity;
    - when the quantities of the known rows other than the later one
      normalise, the call returns, with the same decisions in both files;
    - whenever the call returns, the decision of the first row is in the
      result, no other decision in it bears that id, and the id has left
      the caller's list. *)
Theorem duplicate_code_first_wins (pre mid post : list watch)
    (w1 w2 : watch) (ids : list string) :
  NoDup ids ->
  code w2 = code w1 ->
  In (code w1) ids ->
  ~ In (code w1) (map code pre) ->
  Seller.create_stocks (pre ++ w1 :: mid ++ w2 :: post) ids =
  Seller.create_stocks (pre ++ w1 :: mid ++ post) ids /\
  (forall warehouse_id date,
     Market.create_stocks (pre ++ w1 :: mid ++ w2 :: post) ids
       warehouse_id date =
     Market.create_stocks (pre ++ w1 :: mid ++ post) ids warehouse_id date) /\
  ((forall w, In w (pre ++ w1 :: mid ++ post) -> In (code w) ids ->
              exists n, stock_count w = Ok n) ->
   exists n stocks ids',
     stock_count w1 = Ok n /\
     Seller.create_stocks (pre ++ w1 :: mid ++ w2 :: post) ids =
     (Ok stocks, ids') /\
     forall warehouse_id date,
       Market.create_stocks (pre ++ w1 :: mid ++ w2 :: post) ids
         warehouse_id date =
       (Ok (map (to_market warehouse_id date) stocks), ids')) /\
  (forall stocks ids',
     Seller.create_stocks (pre ++ w1 :: mid ++ w2 :: post) ids =
     (Ok stocks, ids') ->
     exists n,
       stock_count w1 = Ok n /\
       In {| Seller.offer_id := code w1; Seller.stock := n |} stocks /\
       (forall e, In e stocks -> Seller.offer_id e = code w1 ->
                  e = {| Seller.offer_id := code w1; Seller.stock := n |}) /\
       ~ In (code w1) ids') /\
  (forall warehouse_id date stocks ids',
     Market.create_stocks (pre ++ w1 :: mid ++ w2 :: post) ids
       warehouse_id date = (Ok stocks, ids') ->
     exists n,
       stock_count w1 = Ok n /\
       In (Market.stock_of warehouse_id date (code w1) n) stocks /\
       (forall e, In e stocks -> Market.sku e = code w1 ->
                  e = Market.stock_of warehouse_id date (code w1) n) /\
       ~ In (code w1) ids').
Proof.
  intros Hnd Hc Hin Hpre.
  assert (E : Seller.create_stocks (pre ++ w1 :: mid ++ w2 :: post) ids =
              Seller.create_stocks (pre ++ w1 :: mid ++ post) ids).
  { unfold Seller.create_stocks.
    now rewrite (create_stocks_loop_duplicate pre mid post w1 w2 ids Hnd Hc). }
  split; [exact E|]. split; [|split; [|split]].
  - intros warehouse_id date. now rewrite !market_create_stocks_sim, E.
  - intros Hok.
    assert (Hspec := create_stocks_spec (pre ++ w1 :: mid ++ post) ids Hnd).
    rewrite <- E in Hspec.
    destruct (Hok w1) as (n & Hn);
      [apply in_or_app; right; now left | exact Hin |].
    exists n. eexists. eexists. split; [exact Hn|].
    assert (Hret : forall w,
               In w (matched [] (pre ++ w1 :: mid ++ post) ids) ->
               exists m, stock_count w = Ok m).
    { intros w Hw. apply matched_In in Hw. destruct Hw. now apply Hok. }
    split; [exact (Hspec Hret)|].
    intros warehouse_id date.
    now rewrite market_create_stocks_sim, (Hspec Hret).
  - intros stocks ids'. now apply first_row_decision.
  - intros warehouse_id date stocks ids'.
    now apply first_row_market_decision.
Qed.

Lemma duplicate_code_first_wins_witness :
  exists stocks ids',
    Seller.create_stocks
      [{| kod := VStr "1"; kolichestvo := VStr "5"; tsena := VNone |};
       {| kod := VStr "1"; kolichestvo := VStr "9"; tsena := VNone |}]
      ["1"] = (Ok stocks, ids') /\
    In {| Seller.offer_id := "1"; Seller.stock := 5 |} stocks /\
    (forall e, In e stocks -> Seller.offer_id e = "1" ->
               e = {| Seller.offer_id := "1"; Seller.stock := 5 |}) /\
    ~ In "1" ids' /\
    (forall warehouse_id date,
       exists mstocks,
         Market.create_stocks
           [{| kod := VStr "1"; kolichestvo := VStr "5"; tsena := VNone |};
            {| kod := VStr "1"; kolichestvo := VStr "9"; tsena := VNone |}]
           ["1"] warehouse_id date = (Ok mstocks, ids') /\
         In (Market.stock_of warehouse_id date "1" 5) mstocks /\
         forall e, In e mstocks -> Market.sku e = "1" ->
                   e = Market.stock_of warehouse_id date "1" 5).
Proof.
  destruct (duplicate_code_first_wins [] [] []
    {| kod := VStr "1"; kolichestvo := VStr "5"; tsena := VNone |}
    {| kod := VStr "1"; kolichestvo := VStr "9"; tsena := VNone |}
    ["1"]) as (_ & _ & Hret & Hseller & Hmarket).
  - repeat constructor; cbn; intuition discriminate.
  - reflexivity.
  - cbn. now left.
  - cbn. intuition.
  - destruct Hret as (n & stocks & ids' & _ & Hs & Hm).
    { intros w [<-|[]] _. exists 5. reflexivity. }
    exists stocks, ids'. split; [exact Hs|].
    destruct (Hseller stocks ids' Hs) as (m & Hm5 & Hmem & Huniq & Hout).
    injection Hm5 as <-.
    split; [exact Hmem|]. split; [exact Huniq|]. split; [exact Hout|].
    intros warehouse_id date. eexists. split; [apply Hm|].
    destruct (Hmarket warehouse_id date _ ids' (Hm warehouse_id date))
      as (m & Hm5 & Hmmem & Hmuniq & _).
    injection Hm5 as <-. split; [exact Hmmem | exact Hmuniq].
Defined.

Example duplicate_code_sample :
  Seller.create_stocks
    [{| kod := VStr "1"; kolichestvo := VStr "5"; tsena := VNone |};
     {| kod := VStr "1"; kolichestvo := VStr "9"; tsena := VNone |}]
    ["1"] =
  (Ok [{| Seller.offer_id := "1"; Seller.stock := 5 |}], []).
Proof. reflexivity. Qed.

(** The later row is not read: its quantity may be anything. *)
Example duplicate_code_unread :
  Seller.create_stocks
    [{| kod := VStr "1"; kolichestvo := VStr "5"; tsena := VNone |};
     {| kod := VStr "2"; kolichestvo := VStr ">10"; tsena := VNone |};
     {| kod := VStr "1"; kolichestvo := VStr "abc"; tsena := VNone |}]
    ["2"; "1"; "3"] =
  (Ok [{| Seller.offer_id := "1"; Seller.stock := 5 |};
       {| Seller.offer_id := "2"; Seller.stock := 100 |};
       {| Seller.offer_id := "3"; Seller.stock := 0 |}], ["3"]) /\
  Market.create_stocks
    [{| kod := VStr "1"; kolichestvo := VStr "5"; tsena := VNone |};
     {| kod := VStr "1"; kolichestvo := VStr "abc"; tsena := VNone |}]
    ["1"] "w" "d" =
  (Ok [Market.stock_of "w" "d" "1" 5], []).
Proof. split; reflexivity. Qed.

(** With an offer id listed twice, [remove] takes out one occurrence only
    and the second row is honoured as well. *)
Example duplicate_code_duplicate_id :
  Seller.create_stocks
    [{| kod := VStr "1"; kolichestvo := VStr "5"; tsena := VNone |};
     {| kod := VStr "1"; kolichestvo := VStr "9"; tsena := VNone |}]
    ["1"; "1"] =
  (Ok [{| Seller.offer_id := "1"; Seller.stock := 5 |};
       {| Seller.offer_id := "1"; Seller.stock := 9 |}], []).
Proof. reflexivity. Qed.

(** ** The sign of a stock count *)

(** C8 as stated fails: a quantity that reads as a negative integer
    normalises without error and passes into the decision. *)
Lemma negative_stock_counterexample :
  (exists n,
     stock_count {| kod := VStr "1"; kolichestvo := VStr "-5";
                    tsena := VNone |} = Ok n) /\
  Seller.create_stocks
    [{| kod := VStr "1"; kolichestvo := VStr "-5"; tsena := VNone |}]
    ["1"] =
  (Ok [{| Seller.offer_id := "1"; Seller.stock := -5 |}], []) /\
  ~ 0 <= -5.
Proof.
  split; [exists (-5); reflexivity|]. split; [reflexivity | lia].
Qed.

(** C8, amended.  For a feed whose quantities all normalise and none of
    which denotes a negative number (an [int] below zero, or a [str] with
    a minus sign), [create_stocks] returns, and every decision carries a
    stock count that is not negative, in seller.py and in market.py. *)
Theorem stock_counts_nonnegative (ws : list watch) (ids : list string) :
  (forall w, In w ws -> exists n, stock_count w = Ok n) ->
  (forall w, In w ws -> no_minus_sign (kolichestvo w) = true) ->
  exists stocks ids',
    Seller.create_stocks ws ids = (Ok stocks, ids') /\
    Forall (fun e => 0 <= Seller.stock e) stocks /\
    forall warehouse_id date,
    exists mstocks,
      Market.create_stocks ws ids warehouse_id date = (Ok mstocks, ids') /\
      Forall (fun e => Forall (fun it => 0 <= Market.count it)
                         (Market.items e)) mstocks.
Proof.
  intros Hok Hsign.
  destruct (create_stocks_loop_total ws Hok [] ids) as (s & ids' & Hloop).
  assert (Hs : Forall (fun e => 0 <= Seller.stock e) s).
  { apply (create_stocks_loop_Forall _ ws) with (3 := Hloop);
      [|constructor].
    intros w n Hw Hn. cbn [Seller.stock].
    apply (stock_count_nonneg w n); [now apply Hsign | exact Hn]. }
  assert (Hall : Forall (fun e => 0 <= Seller.stock e)
                   (s ++ map (fun i => {| Seller.offer_id := i;
                                          Seller.stock := 0 |}) ids')).
  { apply Forall_app. split; [exact Hs|].
    apply Forall_forall. intros e He. apply in_map_iff in He.
    destruct He as (i & <- & _). cbn. lia. }
  assert (E : Seller.create_stocks ws ids =
              (Ok (s ++ map (fun i => {| Seller.offer_id := i;
                                         Seller.stock := 0 |}) ids'), ids'))
    by (unfold Seller.create_stocks; now rewrite Hloop).
  eexists. exists ids'. split; [exact E|]. split; [exact Hall|].
  intros warehouse_id date. eexists. split.
  - rewrite market_create_stocks_sim, E. reflexivity.
  - apply Forall_forall. intros e He. apply in_map_iff in He.
    destruct He as (e0 & <- & He0). cbn [to_market Market.stock_of Market.items].
    constructor; [|constructor]. cbn [Market.count].
    rewrite Forall_forall in Hall. now apply Hall.
Qed.

Lemma stock_counts_nonnegative_witness :
  exists stocks ids',
    Seller.create_stocks
      [{| kod := VStr "123"; kolichestvo := VStr "7"; tsena := VNone |}]
      ["123"; "456"] = (Ok stocks, ids') /\
    Forall (fun e => 0 <= Seller.stock e) stocks.
Proof.
  destruct (stock_counts_nonnegative
    [{| kod := VStr "123"; kolichestvo := VStr "7"; tsena := VNone |}]
    ["123"; "456"]) as (stocks & ids' & H1 & H2 & _).
  - intros w [<-|[]]. exists 7. reflexivity.
  - intros w [<-|[]]. reflexivity.
  - exists stocks, ids'. split; assumption.
Defined.

(** ** Price normalisation *)

Lemma py_split_head (s : string) :
  nth 0 (py_split "." s) EmptyString = before_dot s.
Proof.
  induction s as [|c s IH]; cbn [py_split before_dot]; [reflexivity|].
  destruct (Ascii.eqb c "."); [reflexivity|].
  destruct (py_split "." s) as [|piece pieces]; cbn [nth] in *;
    now rewrite <- IH.
Qed.

Lemma re_sub_non_digits_digits (s : string) :
  all_chars is_digit (re_sub_non_digits s) = true.
Proof.
  induction s as [|c s IH]; cbn [re_sub_non_digits]; [reflexivity|].
  destruct (is_digit c) eqn:Hc; [|exact IH]. cbn [all_chars].
  now rewrite Hc, IH.
Qed.

Lemma scan_digits_all_digits (s : string) :
  all_chars is_digit s = true ->
  forall acc n,
    scan_digits s acc n false =
    Some (decimal_value s acc, (n + String.length s)%nat, false, EmptyString).
Proof.
  induction s as [|c s IH]; cbn [all_chars scan_digits decimal_value
    String.length]; intros H acc n.
  - now rewrite Nat.add_0_r.
  - apply andb_true_iff in H. destruct H as [Hc Hs]. rewrite Hc.
    rewrite IH by exact Hs. now rewrite Nat.add_succ_r.
Qed.

Lemma digits_are_ascii (s : string) :
  all_chars is_digit s = true -> string_is_ascii s = true.
Proof.
  rewrite string_is_ascii_all. apply all_chars_impl. intros c Hc.
  unfold is_digit, nat_of_ascii in Hc. unfold is_ascii.
  apply andb_true_iff in Hc. destruct Hc as [_ Hc].
  apply Nat.leb_le in Hc. apply N.ltb_lt. lia.
Qed.

(** [int()] of a run of digits: its decimal value, or [ValueError] when
    the run is empty. *)
Lemma py_int_str_digits (s : string) :
  all_chars is_digit s = true ->
  py_int_str s =
  match s with
  | EmptyString => Err ValueError
  | String _ _ => Ok (decimal_value s 0)
  end.
Proof.
  destruct s as [|c s]; [reflexivity|]. intros H.
  assert (Hc : is_digit c = true)
    by (cbn in H; now apply andb_true_iff in H).
  destruct (digit_is_plain c Hc) as (Hsp & Hplus & Hminus & Hus).
  rewrite py_int_str_ascii by now apply digits_are_ascii.
  unfold PyLong_FromString. cbn [skip_space]. rewrite Hsp. cbn [read_sign].
  rewrite Hplus, Hminus. cbn [starts_with_underscore]. rewrite Hus.
  rewrite scan_digits_all_digits by exact H.
  cbn [Nat.add String.length Nat.eqb skip_space]. f_equal.
  destruct (decimal_value (String c s) 0); reflexivity.
Qed.

(** What seller.py returns for a price string: the digits of the part
    before the first dot, without parsing them, and so without failing. *)
Lemma price_conversion_str (s : string) :
  Seller.price_conversion (VStr s) = Ok (re_sub_non_digits (before_dot s)).
Proof. unfold Seller.price_conversion. now rewrite py_split_head. Qed.

(** What market.py makes of a price string: the base-10 value of those
    digits, and [ValueError] when there is none. *)
Lemma market_price_of_str (s : string) :
  Market.price_of (VStr s) =
  match re_sub_non_digits (before_dot s) with
  | EmptyString => Err ValueError
  | String c d => Ok (decimal_value (String c d) 0)
  end.
Proof.
  unfold Market.price_of. rewrite price_conversion_str. cbn [py_int].
  rewrite py_int_str_digits by apply re_sub_non_digits_digits.
  now destruct (re_sub_non_digits (before_dot s)).
Qed.

(** C3.  Price normalisation at the inputs where seller.py leaves what its
    docstring announces: [price_conversion] returns the empty string, and
    raises nothing, on the empty price and on ["invalid_price"], and
    [create_prices] of seller.py passes that empty price on, while
    market.py fails with [ValueError] there; on the two sample prices both
    agree with the claim. *)
Theorem price_conversion_never_fails :
  Seller.price_conversion (VStr EmptyString) = Ok EmptyString /\
  Seller.price_conversion (VStr "invalid_price") = Ok EmptyString /\
  Seller.create_prices
    [{| kod := VStr "123"; kolichestvo := VStr "7"; tsena := VStr EmptyString |}]
    ["123"] =
  Ok [{| Seller.auto_action_enabled := "UNKNOWN";
         Seller.currency_code := "RUB";
         Seller.price_offer_id := "123";
         Seller.old_price := "0";
         Seller.price := EmptyString |}] /\
  Market.price_of (VStr EmptyString) = Err ValueError /\
  Market.price_of (VStr "invalid_price") = Err ValueError /\
  Seller.price_conversion (VStr "5'990.00 руб.") = Ok "5990" /\
  Market.price_of (VStr "5'990.00 руб.") = Ok 5990 /\
  Seller.price_conversion (VStr "10'500.50 руб.") = Ok "10500" /\
  Market.price_of (VStr "10'500.50 руб.") = Ok 10500.
Proof. repeat split; reflexivity. Qed.

(** ** [create_prices] *)

Lemma seller_create_prices_loop_spec (ws : list watch) (ids : list string) :
  forall acc,
    Seller.create_prices_loop ws acc ids =
    result_map (List.app acc) (map_result seller_price (filter (known ids) ws)).
Proof.
  induction ws as [|w ws IH]; intros acc;
    cbn [Seller.create_prices_loop filter map_result result_map].
  - now rewrite app_nil_r.
  - unfold known at 1. fold (code w).
    destruct (py_in (code w) ids); [|apply IH]. cbn [map_result].
    unfold seller_price at 1.
    destruct (Seller.price_conversion (tsena w)) as [p|e];
      cbn [result_map]; [|reflexivity].
    rewrite IH.
    destruct (map_result seller_price (filter (known ids) ws));
      cbn [result_map]; [|reflexivity].
    now rewrite <- app_assoc.
Qed.

Lemma market_create_prices_loop_spec (ws : list watch) (ids : list string) :
  forall acc,
    Market.create_prices_loop ws acc ids =
    result_map (List.app acc) (map_result market_price (filter (known ids) ws)).
Proof.
  induction ws as [|w ws IH]; intros acc;
    cbn [Market.create_prices_loop filter map_result result_map].
  - now rewrite app_nil_r.
  - unfold known at 1. fold (code w).
    destruct (py_in (code w) ids); [|apply IH]. cbn [map_result].
    unfold market_price at 1.
    destruct (Market.price_of (tsena w)) as [v|e];
      cbn [result_map]; [|reflexivity].
    rewrite IH.
    destruct (map_result market_price (filter (known ids) ws));
      cbn [result_map]; [|reflexivity].
    now rewrite <- app_assoc.
Qed.

Lemma seller_create_prices_eq (ws : list watch) (ids : list string) :
  Seller.create_prices ws ids =
  map_result seller_price (filter (known ids) ws).
Proof.
  unfold Seller.create_prices. rewrite seller_create_prices_loop_spec.
  now destruct (map_result seller_price (filter (known ids) ws)).
Qed.

Lemma market_create_prices_eq (ws : list watch) (ids : list string) :
  Market.create_prices ws ids =
  map_result market_price (filter (known ids) ws).
Proof.
  unfold Market.create_prices. rewrite market_create_prices_loop_spec.
  now destruct (map_result market_price (filter (known ids) ws)).
Qed.

Lemma map_result_ok {A B C : Type} (f : A -> result B) (g : A -> C)
    (h : B -> C) (l : list A) (r : list B) :
  (forall a b, f a = Ok b -> h b = g a) ->
  map_result f l = Ok r -> map h r = map g l.
Proof.
  intros Hfg. revert r. induction l as [|a l IH]; cbn [map_result map];
    intros r.
  - now intros [= <-].
  - destruct (f a) as [b|e] eqn:Hb; [|discriminate].
    destruct (map_result f l) as [r'|e]; [|discriminate].
    intros [= <-]. cbn [map]. f_equal; [now apply Hfg | now apply IH].
Qed.

Lemma map_result_total {A B : Type} (f : A -> result B) (l : list A) :
  (forall a, In a l -> exists b, f a = Ok b) ->
  exists r, map_result f l = Ok r.
Proof.
  induction l as [|a l IH]; cbn [map_result]; intros H; [eauto|].
  destruct (H a (or_introl eq_refl)) as (b & ->).
  destruct IH as (r & ->); [intros a' Ha'; apply H; now right | eauto].
Qed.

(** C7 as stated fails: two rows with one code get a price each, so a
    known offer id may get more than one price decision. *)
Lemma price_per_row_counterexample :
  Seller.create_prices
    [{| kod := VStr "1"; kolichestvo := VStr "5"; tsena := VStr "10.00" |};
     {| kod := VStr "1"; kolichestvo := VStr "9"; tsena := VStr "20.00" |}]
    ["1"] =
  Ok [{| Seller.auto_action_enabled := "UNKNOWN";
         Seller.currency_code := "RUB";
         Seller.price_offer_id := "1";
         Seller.old_price := "0";
         Seller.price := "10" |};
      {| Seller.auto_action_enabled := "UNKNOWN";
         Seller.currency_code := "RUB";
         Seller.price_offer_id := "1";
         Seller.old_price := "0";
         Seller.price := "20" |}] /\
  Market.create_prices
    [{| kod := VStr "1"; kolichestvo := VStr "5"; tsena := VStr "10.00" |};
     {| kod := VStr "1"; kolichestvo := VStr "9"; tsena := VStr "20.00" |}]
    ["1"] =
  Ok [{| Market.price_id := "1";
         Market.price := {| Market.value := 10; Market.currencyId := "RUR" |} |};
      {| Market.price_id := "1";
         Market.price := {| Market.value := 20; Market.currencyId := "RUR" |} |}].
Proof. split; reflexivity. Qed.

Lemma known_codes (ws : list watch) (ids : list string) (i : string) :
  In i (map code (filter (known ids) ws)) <-> In i ids /\ In i (map code ws).
Proof.
  rewrite !in_map_iff. split.
  - intros (w & <- & Hw). apply filter_In in Hw. destruct Hw as [Hw Hk].
    split; [now apply py_in_In | now exists w].
  - intros [Hi (w & <- & Hw)]. exists w. split; [reflexivity|].
    apply filter_In. split; [exact Hw | now apply py_in_In].
Qed.

(** Distinct codes in the feed stay distinct among the known rows. *)
Lemma known_codes_NoDup (ws : list watch) (ids : list string) :
  NoDup (map code ws) -> NoDup (map code (filter (known ids) ws)).
Proof.
  induction ws as [|w ws IH]; cbn [map filter]; [auto|].
  intros H. inversion H as [|? ? Hw Hws]; subst.
  destruct (known ids w); cbn [map]; [|auto]. constructor; [|auto].
  intros Hin. apply Hw. apply known_codes in Hin. tauto.
Qed.

(** C7, amended.  [create_prices] makes one price decision per row whose
    code is a known offer id, in feed order, and nothing else: the offer
    ids of the decisions are the codes of those rows, so an offer id that
    no row carries gets no entry, and an offer id gets as many entries as
    there are rows with its code (at most one when the codes of the feed
    are distinct).  seller.py returns for every feed whose prices are
    strings. *)
Theorem create_prices_per_matched_row (ws : list watch) (ids : list string) :
  Seller.create_prices ws ids =
    map_result seller_price (filter (known ids) ws) /\
  Market.create_prices ws ids =
    map_result market_price (filter (known ids) ws) /\
  (forall prices, Seller.create_prices ws ids = Ok prices ->
     map Seller.price_offer_id prices = map code (filter (known ids) ws)) /\
  (forall prices, Market.create_prices ws ids = Ok prices ->
     map Market.price_id prices = map code (filter (known ids) ws)) /\
  (forall i, In i (map code (filter (known ids) ws)) <->
             In i ids /\ In i (map code ws)) /\
  (NoDup (map code ws) -> NoDup (map code (filter (known ids) ws))) /\
  ((forall w, In w ws -> exists s, tsena w = VStr s) ->
   exists prices, Seller.create_prices ws ids = Ok prices).
Proof.
  pose proof (seller_create_prices_eq ws ids) as Es.
  pose proof (market_create_prices_eq ws ids) as Em.
  split; [exact Es|]. split; [exact Em|].
  split; [|split; [|split; [|split]]].
  - intros prices H. rewrite Es in H.
    apply (map_result_ok seller_price code Seller.price_offer_id _ _) in H;
      [exact H|].
    intros w e. unfold seller_price.
    destruct (Seller.price_conversion (tsena w)); cbn [result_map];
      [|discriminate]. now intros [= <-].
  - intros prices H. rewrite Em in H.
    apply (map_result_ok market_price code Market.price_id _ _) in H;
      [exact H|].
    intros w e. unfold market_price.
    destruct (Market.price_of (tsena w)); cbn [result_map];
      [|discriminate]. now intros [= <-].
  - apply known_codes.
  - apply known_codes_NoDup.
  - intros H. rewrite Es. apply map_result_total.
    intros w Hw. apply filter_In in Hw. destruct Hw as [Hw _].
    destruct (H w Hw) as (s & Hs). unfold seller_price. rewrite Hs.
    rewrite price_conversion_str. cbn [result_map]. eauto.
Qed.

Lemma create_prices_per_matched_row_witness :
  exists prices,
    Seller.create_prices
      [{| kod := VStr "123"; kolichestvo := VStr ">10";
          tsena := VStr "5990.00" |}]
      ["123"; "456"] = Ok prices.
Proof.
  apply (proj2 (proj2 (proj2 (proj2 (proj2 (proj2
    (create_prices_per_matched_row
       [{| kod := VStr "123"; kolichestvo := VStr ">10";
           tsena := VStr "5990.00" |}]
       ["123"; "456"]))))))).
  intros w [<-|[]]. exists "5990.00". reflexivity.
Defined.

Example create_prices_sample :
  Seller.create_prices
    [{| kod := VStr "123"; kolichestvo := VStr ">10";
        tsena := VStr "5990.00" |}]
    ["123"; "456"] =
  Ok [{| Seller.auto_action_enabled := "UNKNOWN";
         Seller.currency_code := "RUB";
         Seller.price_offer_id := "123";
         Seller.old_price := "0";
         Seller.price := "5990" |}].
Proof. reflexivity. Qed.

(** ** [divide] *)

Section Divide.

Context {A : Type}.

Lemma py_slice_forward (l : list A) (i n : Z) :
  0 <= i -> 0 < n ->
  py_slice l i (i + n) = firstn (Z.to_nat n) (skipn (Z.to_nat i) l).
Proof.
  intros Hi Hn. unfold py_slice, clamp_index.
  destruct (Z.ltb_spec i 0) as [?|_]; [lia|].
  destruct (Z.ltb_spec (i + n) 0) as [?|_]; [lia|].
  destruct (Z.le_gt_cases (Z.of_nat (List.length l)) i) as [Hle|Hlt].
  - rewrite !Z.min_r by lia. rewrite Z.sub_diag. cbn [Z.to_nat firstn].
    rewrite skipn_all2 by lia. now rewrite firstn_nil.
  - rewrite (Z.min_l i) by lia.
    destruct (Z.le_gt_cases (i + n) (Z.of_nat (List.length l))) as [H|H].
    + rewrite Z.min_l by lia. f_equal. lia.
    + rewrite Z.min_r by lia.
      rewrite !firstn_all2; [reflexivity | |]; rewrite length_skipn; lia.
Qed.

(** [divide] cuts at the multiples of [n]. *)
Lemma divide_chunk_list (lst : list A) (n : Z) :
  0 < n ->
  Seller.divide lst n =
  Ok (map (chunk lst (Z.to_nat n))
        (seq 0 (py_range_len 0 (Z.of_nat (List.length lst)) n))).
Proof.
  intros Hn. unfold Seller.divide, py_range.
  destruct (Z.eqb_spec n 0) as [?|_]; [lia|].
  rewrite map_map. f_equal. apply map_ext. intros k.
  rewrite py_slice_forward by lia. unfold chunk. do 2 f_equal. nia.
Qed.

(** The number of chunks: none for the empty list, else the length
    divided by [n], rounded up. *)
Lemma chunk_count_bounds (len : nat) (n : Z) :
  0 < n ->
  let m := py_range_len 0 (Z.of_nat len) n in
  (len <= m * Z.to_nat n)%nat /\
  (len = 0%nat -> m = 0%nat) /\
  (0 < len -> 0 < m /\ (m - 1) * Z.to_nat n < len)%nat.
Proof.
  intros Hn. unfold py_range_len. cbv zeta.
  destruct (Z.ltb_spec 0 n) as [_|?]; [|lia].
  destruct (Z.ltb_spec 0 (Z.of_nat len)) as [Hlen|Hlen].
  - rewrite Z.sub_0_r.
    pose proof (Z.div_mod (Z.of_nat len - 1) n ltac:(lia)) as Hdm.
    pose proof (Z.mod_pos_bound (Z.of_nat len - 1) n Hn) as Hmod.
    assert (Hq : 0 <= (Z.of_nat len - 1) / n)
      by (apply Z.div_pos; lia).
    set (q := (Z.of_nat len - 1) / n) in *.
    replace (Z.to_nat (q + 1)) with (S (Z.to_nat q)) by lia.
    split; [|split; [lia|]].
    + apply Nat2Z.inj_le. rewrite Nat2Z.inj_mul, Nat2Z.inj_succ.
      rewrite !Z2Nat.id by lia. nia.
    + intros _. split; [lia|]. apply Nat2Z.inj_lt.
      replace (S (Z.to_nat q) - 1)%nat with (Z.to_nat q) by lia.
      rewrite Nat2Z.inj_mul, !Z2Nat.id by lia. nia.
  - repeat split; lia.
Qed.

(** Consecutive chunks that cover the list concatenate to it. *)
Lemma concat_chunks (size : nat) :
  forall (m : nat) (l : list A),
    (List.length l <= m * size)%nat ->
    List.concat (map (chunk l size) (seq 0 m)) = l.
Proof.
  induction m as [|m IH]; intros l Hl.
  - cbn in *. destruct l; [reflexivity | cbn in Hl; lia].
  - cbn [seq map List.concat]. rewrite <- seq_shift, map_map.
    rewrite (map_ext _ (chunk (skipn size l) size)).
    + rewrite IH by (rewrite length_skipn; lia).
      unfold chunk. cbn [Nat.mul skipn]. apply firstn_skipn.
    + intros k. unfold chunk. f_equal. cbn [Nat.mul].
      now rewrite skipn_skipn, Nat.add_comm.
Qed.

Lemma chunk_length (l : list A) (size k : nat) :
  List.length (chunk l size k) = Nat.min size (List.length l - k * size).
Proof. unfold chunk. now rewrite length_firstn, length_skipn. Qed.

End Divide.

(** C6.  Batcher: for a positive chunk size [n], [divide] yields the
    consecutive slices of [n] elements of the list, in order; every chunk
    but the last has [n] elements, the last has the remainder of the
    length by [n], or [n] when the remainder is zero; the chunks
    concatenate to the list, and the empty list yields no chunk. *)
Theorem divide_chunks {A : Type} (lst : list A) (n : Z) :
  0 < n ->
  exists chunks,
    Seller.divide lst n = Ok chunks /\
    List.concat chunks = lst /\
    (forall k, (k < List.length chunks)%nat ->
       nth k chunks [] = chunk lst (Z.to_nat n) k) /\
    (forall k, (S k < List.length chunks)%nat ->
       Z.of_nat (List.length (nth k chunks [])) = n) /\
    (chunks <> [] ->
       Z.of_nat (List.length (last chunks [])) =
       if Z.of_nat (List.length lst) mod n =? 0 then n
       else Z.of_nat (List.length lst) mod n) /\
    (lst = [] -> chunks = []).
Proof.
  intros Hn.
  pose proof (chunk_count_bounds (List.length lst) n Hn) as Hm.
  cbv zeta in Hm.
  set (m := py_range_len 0 (Z.of_nat (List.length lst)) n) in *.
  set (size := Z.to_nat n).
  destruct Hm as (Hcover & Hzero & Hpos). fold size in Hcover, Hpos.
  assert (Hnth : forall k, (k < m)%nat ->
            nth k (map (chunk lst size) (seq 0 m)) [] = chunk lst size k).
  { intros k Hk.
    rewrite (nth_indep _ [] (chunk lst size 0))
      by (now rewrite length_map, length_seq).
    now rewrite map_nth, seq_nth. }
  exists (map (chunk lst size) (seq 0 m)).
  rewrite length_map, length_seq.
  split; [now apply divide_chunk_list|].
  split; [now apply concat_chunks|].
  split; [exact Hnth|].
  split; [|split].
  - intros k Hk. rewrite Hnth by lia. rewrite chunk_length.
    assert (0 < List.length lst)%nat by (destruct (List.length lst); lia).
    destruct (Hpos ltac:(assumption)) as [_ Hlast].
    assert ((S k) * size <= (m - 1) * size)%nat
      by (apply Nat.mul_le_mono_r; lia).
    unfold size in *. nia.
  - intros Hne.
    destruct m as [|m'] eqn:Em; [now contradiction Hne|].
    rewrite seq_S, map_app. cbn [map Nat.add]. rewrite last_last.
    rewrite chunk_length.
    assert (Hlen : (0 < List.length lst)%nat).
    { destruct (List.length lst); [|lia].
      now specialize (Hzero eq_refl). }
    destruct (Hpos Hlen) as [_ Hlast].
    replace (S m' - 1)%nat with m' in Hlast by lia.
    set (r := Z.of_nat (List.length lst) - Z.of_nat m' * n).
    assert (Hr : 0 < r <= n) by (unfold r, size in *; nia).
    replace (Z.of_nat (Nat.min size (List.length lst - m' * size)))
      with r by (unfold r, size in *; nia).
    destruct (Z.eq_dec r n) as [E|N].
    + replace (Z.of_nat (List.length lst)) with (Z.of_nat (S m') * n)
        by (unfold r in *; nia).
      rewrite Z.mod_mul by lia. cbn [Z.eqb]. exact E.
    + rewrite <- (Z.mod_unique_pos (Z.of_nat (List.length lst)) n
                    (Z.of_nat m') r) by (unfold r; nia).
      destruct (Z.eqb_spec r 0); [lia | reflexivity].
  - intros ->. cbn in Hzero. now rewrite (Hzero eq_refl).
Qed.

Lemma divide_chunks_witness :
  exists chunks,
    Seller.divide [1; 2; 3] 2 = Ok chunks /\ List.concat chunks = [1; 2; 3].
Proof.
  destruct (divide_chunks [1; 2; 3] 2) as (chunks & H1 & H2 & _).
  - reflexivity.
  - exists chunks. split; assumption.
Defined.

Example divide_samples :
  Seller.divide [1; 2; 3; 4; 5; 6] 2 = Ok [[1; 2]; [3; 4]; [5; 6]] /\
  Seller.divide [1; 2; 3] 2 = Ok [[1; 2]; [3]] /\
  Seller.divide (@nil Z) 2 = Ok [] /\
  Seller.divide [1; 2; 3] 0 = Err ValueError /\
  Seller.divide [1; 2; 3] (-1) = Ok [].
Proof. repeat split; reflexivity. Qed.

(** ** Orchestration *)

Section Monad.

Context {W : Type}.

Lemma bind_ok {A B : Type} (m : M W A) (k : A -> M W B) (w w1 : W) (a : A) :
  m w = Some (Ok a, w1) -> bind m k w = k a w1.
Proof. intros H. unfold bind. now rewrite H. Qed.

Lemma bind_inv {A B : Type} (m : M W A) (k : A -> M W B) (w w' : W) (b : B) :
  bind m k w = Some (Ok b, w') ->
  exists a w1, m w = Some (Ok a, w1) /\ k a w1 = Some (Ok b, w').
Proof.
  unfold bind. destruct (m w) as [[[a|e] w1]|]; [eauto | discriminate ..].
Qed.

Lemma lift_inv {A : Type} (r : result A) (w w' : W) (a : A) :
  lift r w = Some (Ok a, w') -> r = Ok a /\ w' = w.
Proof. unfold lift. now intros [= -> ->]. Qed.

(** A loop whose body always succeeds runs to its end. *)
Lemma for_each_total {A : Type} (l : list A) (body : A -> M W unit) :
  (forall x w, In x l -> exists w', body x w = Some (Ok tt, w')) ->
  forall w, exists w', for_each l body w = Some (Ok tt, w').
Proof.
  induction l as [|x l IH]; intros H w; cbn [for_each].
  - exists w. reflexivity.
  - destruct (H x w (or_introl eq_refl)) as (w1 & H1).
    rewrite (bind_ok _ _ _ _ _ H1). apply IH.
    intros y w2 Hy. apply H. now right.
Qed.

End Monad.

Lemma count_is_not_zero_spec (e : Market.stock_entry) :
  (forall b, Market.count_is_not_zero e = Ok b -> market_not_empty e = b) /\
  (Market.items e <> [] ->
   Market.count_is_not_zero e = Ok (market_not_empty e)).
Proof.
  unfold Market.count_is_not_zero, market_not_empty.
  destruct (Market.items e) as [|it its].
  - split; [discriminate | congruence].
  - split; [now intros b [= <-] | reflexivity].
Qed.

Lemma py_filter_spec (l : list Market.stock_entry) :
  (forall r, py_filter Market.count_is_not_zero l = Ok r ->
             r = filter market_not_empty l) /\
  (Forall (fun e => Market.items e <> []) l ->
   py_filter Market.count_is_not_zero l = Ok (filter market_not_empty l)).
Proof.
  induction l as [|e l [IH1 IH2]]; cbn [py_filter filter].
  - split; [now intros r [= <-] | reflexivity].
  - destruct (count_is_not_zero_spec e) as [He1 He2]. split.
    + destruct (Market.count_is_not_zero e) as [b|]; [|discriminate].
      rewrite (He1 b eq_refl).
      destruct (py_filter Market.count_is_not_zero l) as [r'|];
        [|discriminate].
      intros r [= <-]. now rewrite (IH1 r' eq_refl).
    + intros H. inversion H as [|? ? Hit Hl]; subst.
      now rewrite (He2 Hit), (IH2 Hl).
Qed.

Lemma market_stocks_have_items (ws : list watch) (ids ids' : list string)
    (warehouse_id date : string) (stocks : list Market.stock_entry) :
  Market.create_stocks ws ids warehouse_id date = (Ok stocks, ids') ->
  Forall (fun e => Market.items e <> []) stocks.
Proof.
  rewrite market_create_stocks_sim.
  destruct (fst (Seller.create_stocks ws ids)) as [s|e];
    cbn [result_map]; [|discriminate].
  intros [= <- _]. apply Forall_forall. intros e He.
  apply in_map_iff in He. destruct He as (e0 & <- & _). discriminate.
Qed.

Section UploadStocks.

Variable world : Type.

Lemma seller_upload_stocks_inv
    (get_product_list : string -> string -> string -> world ->
                        result Seller.page * world)
    (update_stocks : list Seller.stock_entry -> string -> string -> world ->
                     result unit * world)
    (fuel : nat) (ws : list watch) (client_id seller_token : string)
    (w w' : world) (r : list Seller.stock_entry * list Seller.stock_entry) :
  Seller.upload_stocks world get_product_list update_stocks fuel ws
    client_id seller_token w = Some (Ok r, w') ->
  exists ids w1,
    Seller.get_offer_ids world get_product_list fuel client_id seller_token w
    = Some (Ok ids, w1) /\
    fst (Seller.create_stocks ws ids) = Ok (snd r) /\
    fst r = filter seller_not_empty (snd r).
Proof.
  unfold Seller.upload_stocks. intros H.
  apply bind_inv in H. destruct H as (ids & w1 & Hids & H).
  apply bind_inv in H. destruct H as (stocks & w2 & Hst & H).
  apply lift_inv in Hst. destruct Hst as [Hst ->].
  apply bind_inv in H. destruct H as (batches & w3 & _ & H).
  apply bind_inv in H. destruct H as ([] & w4 & _ & H).
  unfold ret in H. injection H as <- _.
  exists ids, w1. cbn [fst snd]. auto.
Qed.

Lemma seller_upload_stocks_total
    (get_product_list : string -> string -> string -> world ->
                        result Seller.page * world)
    (update_stocks : list Seller.stock_entry -> string -> string -> world ->
                     result unit * world)
    (fuel : nat) (ws : list watch) (client_id seller_token : string)
    (w w1 : world) (ids : list string) (stocks : list Seller.stock_entry) :
  Seller.get_offer_ids world get_product_list fuel client_id seller_token w
  = Some (Ok ids, w1) ->
  fst (Seller.create_stocks ws ids) = Ok stocks ->
  (forall batch w0, fst (update_stocks batch client_id seller_token w0) = Ok tt) ->
  exists w',
    Seller.upload_stocks world get_product_list update_stocks fuel ws
      client_id seller_token w =
    Some (Ok (filter seller_not_empty stocks, stocks), w').
Proof.
  intros Hids Hst Hup. unfold Seller.upload_stocks.
  rewrite (bind_ok _ _ _ _ _ Hids). rewrite Hst.
  unfold lift at 1. cbn [bind].
  rewrite (divide_chunk_list stocks 100) by lia.
  unfold lift at 1. cbn [bind].
  destruct (for_each_total
              (map (chunk stocks (Z.to_nat 100))
                 (seq 0 (py_range_len 0 (Z.of_nat (List.length stocks)) 100)))
              (fun some_stock =>
                 call (update_stocks some_stock client_id seller_token))
              (W := world)) with (w := w1) as (w' & Hfor).
  { intros batch w0 _. unfold call. specialize (Hup batch w0).
    destruct (update_stocks batch client_id seller_token w0) as [[[]|e] w2];
      cbn [fst] in Hup; [eauto | discriminate]. }
  unfold bind at 1. rewrite Hfor. exists w'. reflexivity.
Qed.

Lemma market_upload_stocks_inv
    (get_product_list : string -> string -> string -> world ->
                        result Market.page_result * world)
    (update_stocks : list Market.stock_entry -> string -> string -> world ->
                     result unit * world)
    (utcnow : world -> string)
    (fuel : nat) (ws : list watch)
    (campaign_id market_token warehouse_id : string)
    (w w' : world) (r : list Market.stock_entry * list Market.stock_entry) :
  Market.upload_stocks world get_product_list update_stocks utcnow fuel ws
    campaign_id market_token warehouse_id w = Some (Ok r, w') ->
  exists ids w1,
    Market.get_offer_ids world get_product_list fuel campaign_id market_token w
    = Some (Ok ids, w1) /\
    fst (Market.create_stocks ws ids warehouse_id (utcnow w1)) = Ok (snd r) /\
    fst r = filter market_not_empty (snd r).
Proof.
  unfold Market.upload_stocks. intros H.
  apply bind_inv in H. destruct H as (ids & w1 & Hids & H).
  apply bind_inv in H. destruct H as (date & w1' & Hdate & H).
  injection Hdate as <- <-.
  apply bind_inv in H. destruct H as (stocks & w2 & Hst & H).
  apply lift_inv in Hst. destruct Hst as [Hst ->].
  apply bind_inv in H. destruct H as (batches & w3 & _ & H).
  apply bind_inv in H. destruct H as ([] & w4 & _ & H).
  apply bind_inv in H. destruct H as (not_empty & w5 & Hf & H).
  apply lift_inv in Hf. destruct Hf as [Hf ->].
  unfold ret in H. injection H as <- _.
  exists ids, w1. cbn [fst snd]. split; [exact Hids|]. split; [exact Hst|].
  now apply py_filter_spec.
Qed.

Lemma market_upload_stocks_total
    (get_product_list : string -> string -> string -> world ->
                        result Market.page_result * world)
    (update_stocks : list Market.stock_entry -> string -> string -> world ->
                     result unit * world)
    (utcnow : world -> string)
    (fuel : nat) (ws : list watch)
    (campaign_id market_token warehouse_id : string)
    (w w1 : world) (ids : list string) (stocks : list Market.stock_entry) :
  Market.get_offer_ids world get_product_list fuel campaign_id market_token w
  = Some (Ok ids, w1) ->
  fst (Market.create_stocks ws ids warehouse_id (utcnow w1)) = Ok stocks ->
  (forall batch w0,
     fst (update_stocks batch campaign_id market_token w0) = Ok tt) ->
  exists w',
    Market.upload_stocks world get_product_list update_stocks utcnow fuel ws
      campaign_id market_token warehouse_id w =
    Some (Ok (filter market_not_empty stocks, stocks), w').
Proof.
  intros Hids Hst Hup. unfold Market.upload_stocks.
  rewrite (bind_ok _ _ _ _ _ Hids). unfold bind at 1, read. rewrite Hst.
  unfold lift at 1. cbn [bind].
  rewrite (divide_chunk_list stocks 2000) by lia.
  unfold lift at 1. cbn [bind].
  destruct (for_each_total
              (map (chunk stocks (Z.to_nat 2000))
                 (seq 0 (py_range_len 0 (Z.of_nat (List.length stocks)) 2000)))
              (fun some_stock =>
                 call (update_stocks some_stock campaign_id market_token))
              (W := world)) with (w := w1) as (w' & Hfor).
  { intros batch w0 _. unfold call. specialize (Hup batch w0).
    destruct (update_stocks batch campaign_id market_token w0)
      as [[[]|e] w2]; cbn [fst] in Hup; [eauto | discriminate]. }
  unfold bind at 1. rewrite Hfor.
  assert (Hitems : Forall (fun e => Market.items e <> []) stocks).
  { destruct (Market.create_stocks ws ids warehouse_id (utcnow w1))
      as [r ids'] eqn:E. cbn [fst] in Hst. subst r.
    eapply market_stocks_have_items; eauto. }
  apply (proj2 (py_filter_spec stocks)) in Hitems.
  unfold bind, lift. rewrite Hitems. exists w'. reflexivity.
Qed.

End UploadStocks.

(** C9.  Non-empty-stock report: whenever [upload_stocks] returns, the
    second component of its result is the full list that [create_stocks]
    built from the fetched offer ids, unchanged, and the first component
    is the sub-list of its entries whose stock count is not zero, in the
    same order; and it does return them whenever the catalogue is fetched,
    the quantities normalise and every submission succeeds.  This holds
    for seller.py and for market.py. *)
Theorem upload_stocks_report (world : Type) :
  (forall get_product_list update_stocks fuel ws client_id seller_token
          (w w' : world) r,
     Seller.upload_stocks world get_product_list update_stocks fuel ws
       client_id seller_token w = Some (Ok r, w') ->
     exists ids w1,
       Seller.get_offer_ids world get_product_list fuel client_id
         seller_token w = Some (Ok ids, w1) /\
       fst (Seller.create_stocks ws ids) = Ok (snd r) /\
       fst r = filter seller_not_empty (snd r)) /\
  (forall get_product_list update_stocks fuel ws client_id seller_token
          (w w1 : world) ids stocks,
     Seller.get_offer_ids world get_product_list fuel client_id
       seller_token w = Some (Ok ids, w1) ->
     fst (Seller.create_stocks ws ids) = Ok stocks ->
     (forall batch w0,
        fst (update_stocks batch client_id seller_token w0) = Ok tt) ->
     exists w',
       Seller.upload_stocks world get_product_list update_stocks fuel ws
         client_id seller_token w =
       Some (Ok (filter seller_not_empty stocks, stocks), w')) /\
  (forall get_product_list update_stocks utcnow fuel ws campaign_id
          market_token warehouse_id (w w' : world) r,
     Market.upload_stocks world get_product_list update_stocks utcnow fuel
       ws campaign_id market_token warehouse_id w = Some (Ok r, w') ->
     exists ids w1,
       Market.get_offer_ids world get_product_list fuel campaign_id
         market_token w = Some (Ok ids, w1) /\
       fst (Market.create_stocks ws ids warehouse_id (utcnow w1)) =
       Ok (snd r) /\
       fst r = filter market_not_empty (snd r)) /\
  (forall get_product_list update_stocks utcnow fuel ws campaign_id
          market_token warehouse_id (w w1 : world) ids stocks,
     Market.get_offer_ids world get_product_list fuel campaign_id
       market_token w = Some (Ok ids, w1) ->
     fst (Market.create_stocks ws ids warehouse_id (utcnow w1)) =
     Ok stocks ->
     (forall batch w0,
        fst (update_stocks batch campaign_id market_token w0) = Ok tt) ->
     exists w',
       Market.upload_stocks world get_product_list update_stocks utcnow
         fuel ws campaign_id market_token warehouse_id w =
       Some (Ok (filter market_not_empty stocks, stocks), w')).
Proof.
  split; [|split; [|split]].
  - intros. eapply seller_upload_stocks_inv; eassumption.
  - intros. eapply seller_upload_stocks_total; eassumption.
  - intros. eapply market_upload_stocks_inv; eassumption.
  - intros. eapply market_upload_stocks_total; eassumption.
Qed.

Lemma upload_stocks_report_witness :
  exists w',
    Seller.upload_stocks recording_world (one_page ["123"; "456"])
      record_stocks 1
      [{| kod := VStr "123"; kolichestvo := VStr ">10";
          tsena := VStr "5990.00" |}]
      "client" "token" [] =
    Some (Ok ([{| Seller.offer_id := "123"; Seller.stock := 100 |}],
              [{| Seller.offer_id := "123"; Seller.stock := 100 |};
               {| Seller.offer_id := "456"; Seller.stock := 0 |}]), w').
Proof.
  apply (proj1 (proj2 (upload_stocks_report recording_world))
           (one_page ["123"; "456"]) record_stocks 1%nat
           [{| kod := VStr "123"; kolichestvo := VStr ">10";
               tsena := VStr "5990.00" |}]
           "client" "token" [] [] ["123"; "456"]
           [{| Seller.offer_id := "123"; Seller.stock := 100 |};
            {| Seller.offer_id := "456"; Seller.stock := 0 |}]).
  - reflexivity.
  - reflexivity.
  - intros batch w0. reflexivity.
Defined.

Example upload_stocks_sample :
  Seller.upload_stocks recording_world (one_page ["123"; "456"])
    record_stocks 1
    [{| kod := VStr "123"; kolichestvo := VStr ">10";
        tsena := VStr "5990.00" |}]
    "client" "token" [] =
  Some (Ok ([{| Seller.offer_id := "123"; Seller.stock := 100 |}],
            [{| Seller.offer_id := "123"; Seller.stock := 100 |};
             {| Seller.offer_id := "456"; Seller.stock := 0 |}]),
        [SentStocks [{| Seller.offer_id := "123"; Seller.stock := 100 |};
                     {| Seller.offer_id := "456"; Seller.stock := 0 |}]]).
Proof. reflexivity. Qed.

(** ** Pagination *)

Section Pagination.

Variable world : Type.

Lemma market_loop_pages
    (get_product_list : string -> string -> string -> world ->
                        result Market.page_result * world)
    (campaign_id market_token page : string) (w w' : world)
    (ps : list Market.page_result) :
  market_pages get_product_list campaign_id market_token page w ps w' ->
  forall fuel acc,
    ((List.length ps <= fuel)%nat ->
     Market.get_offer_ids_loop world get_product_list fuel campaign_id
       market_token page acc w =
     Some (Ok (acc ++ List.concat (map Market.offerMappingEntries ps)), w')) /\
    ((fuel < List.length ps)%nat ->
     Market.get_offer_ids_loop world get_product_list fuel campaign_id
       market_token page acc w = None).
Proof.
  induction 1 as [page w w' p Hcall Hend
                 |page w w1 w' p t ps Hcall Htok Ht Hrest IH];
    intros fuel acc; (destruct fuel as [|fuel];
      [split; [cbn [List.length]; lia | reflexivity]|]);
    cbn [Market.get_offer_ids_loop List.length];
    unfold bind, call; rewrite Hcall.
  - split; [intros _ | lia].
    cbn [map List.concat]. rewrite app_nil_r. cbv zeta. now rewrite Hend.
  - cbv zeta. rewrite Htok. cbn [Market.no_next_page Market.token_text].
    destruct (String.eqb_spec t EmptyString) as [?|_]; [contradiction|].
    destruct (IH fuel (acc ++ Market.offerMappingEntries p)) as [IH1 IH2].
    split; intros Hf.
    + rewrite IH1 by lia. cbn [map List.concat]. now rewrite app_assoc.
    + apply IH2. lia.
Qed.

Lemma seller_loop_pages
    (get_product_list : string -> string -> string -> world ->
                        result Seller.page * world)
    (client_id seller_token last_id : string) (count : nat) (w w' : world)
    (ps : list Seller.page) :
  seller_pages get_product_list client_id seller_token last_id count w ps w' ->
  forall fuel acc,
    List.length acc = count ->
    ((List.length ps <= fuel)%nat ->
     Seller.get_offer_ids_loop world get_product_list fuel client_id
       seller_token last_id acc w =
     Some (Ok (acc ++ List.concat (map Seller.result_items ps)), w')) /\
    ((fuel < List.length ps)%nat ->
     Seller.get_offer_ids_loop world get_product_list fuel client_id
       seller_token last_id acc w = None).
Proof.
  induction 1 as [last_id count w w' p Hcall Hend
                 |last_id count w w1 w' p ps Hcall Hmore Hrest IH];
    intros fuel acc Hacc; (destruct fuel as [|fuel];
      [split; [cbn [List.length]; lia | reflexivity]|]);
    cbn [Seller.get_offer_ids_loop List.length];
    unfold bind, call; rewrite Hcall; rewrite length_app, Hacc.
  - split; [intros _ | lia].
    cbn [map List.concat]. rewrite app_nil_r.
    destruct (Z.eqb_spec (Seller.result_total p)
                (Z.of_nat (count + List.length (Seller.result_items p))));
      [reflexivity | contradiction].
  - destruct (Z.eqb_spec (Seller.result_total p)
                (Z.of_nat (count + List.length (Seller.result_items p))));
      [contradiction|].
    destruct (IH fuel (acc ++ Seller.result_items p)) as [IH1 IH2];
      [now rewrite length_app, Hacc|].
    split; intros Hf.
    + rewrite IH1 by lia. cbn [map List.concat]. now rewrite app_assoc.
    + apply IH2. lia.
Qed.

End Pagination.

Lemma stalled_catalogue_loop (fuel : nat) :
  Seller.get_offer_ids_loop unit stalled_catalogue fuel "client" "token"
    EmptyString [] tt = None.
Proof.
  induction fuel as [|fuel IH]; [reflexivity|].
  cbn [Seller.get_offer_ids_loop]. unfold bind, call, stalled_catalogue.
  cbn [Seller.result_items Seller.result_total Seller.result_last_id
       List.app List.length Z.of_nat Z.eqb].
  exact IH.
Qed.

(** C10 as stated fails: the Ozon loop does not stop on a page without
    cursor, and stops on a page that carries one.  With the absence of a
    cursor as the mark of the end, it neither terminates on
    [stalled_catalogue], whose first page already carries none, nor reads
    the second page of [two_page_catalogue]. *)
Lemma cursor_contract_counterexample :
  fst (stalled_catalogue EmptyString "client" "token" tt) =
    Ok {| Seller.result_items := [];
          Seller.result_total := 1;
          Seller.result_last_id := EmptyString |} /\
  ~ (exists fuel r,
       Seller.get_offer_ids unit stalled_catalogue fuel "client" "token" tt
       = Some r) /\
  Seller.get_offer_ids unit two_page_catalogue 5 "client" "token" tt =
    Some (Ok ["a"], tt).
Proof.
  split; [reflexivity|]. split; [|reflexivity].
  intros (fuel & r & H). unfold Seller.get_offer_ids, bind in H.
  rewrite stalled_catalogue_loop in H. discriminate H.
Qed.

(** C10, amended.  Pagination: [get_offer_ids] of market.py calls the
    catalogue until a page comes without next-page token (none, or an
    empty one); [get_offer_ids] of seller.py calls it until the number of
    products listed so far equals the total that the page reports.  For
    every catalogue that serves such a last page after finitely many
    calls, the loop makes exactly these calls (with less fuel than pages
    it is still running), ends in the world they leave, and returns the
    offer ids of the pages in page order. *)
Theorem get_offer_ids_terminates (world : Type) :
  (forall get_product_list campaign_id market_token (w w' : world) ps,
     market_pages get_product_list campaign_id market_token EmptyString w ps w' ->
     forall fuel,
       ((List.length ps <= fuel)%nat ->
        Market.get_offer_ids world get_product_list fuel campaign_id
          market_token w =
        Some (Ok (map (fun p => Market.shopSku (Market.entry_offer p))
                    (List.concat (map Market.offerMappingEntries ps))), w')) /\
       ((fuel < List.length ps)%nat ->
        Market.get_offer_ids world get_product_list fuel campaign_id
          market_token w = None)) /\
  (forall get_product_list client_id seller_token (w w' : world) ps,
     seller_pages get_product_list client_id seller_token EmptyString 0 w ps w' ->
     forall fuel,
       ((List.length ps <= fuel)%nat ->
        Seller.get_offer_ids world get_product_list fuel client_id
          seller_token w =
        Some (Ok (map Seller.product_offer_id
                    (List.concat (map Seller.result_items ps))), w')) /\
       ((fuel < List.length ps)%nat ->
        Seller.get_offer_ids world get_product_list fuel client_id
          seller_token w = None)).
Proof.
  split.
  - intros gpl c t w w' ps H fuel.
    destruct (market_loop_pages world gpl c t EmptyString w w' ps H fuel []) as [H1 H2].
    unfold Market.get_offer_ids, bind.
    split; intros Hf; [rewrite H1 by exact Hf | rewrite H2 by exact Hf];
      reflexivity.
  - intros gpl c t w w' ps H fuel.
    destruct (seller_loop_pages world gpl c t EmptyString 0 w w' ps H fuel []
                eq_refl) as [H1 H2].
    unfold Seller.get_offer_ids, bind.
    split; intros Hf; [rewrite H1 by exact Hf | rewrite H2 by exact Hf];
      reflexivity.
Qed.

Lemma get_offer_ids_terminates_witness :
  Seller.get_offer_ids unit two_page_catalogue 1 "client" "token" tt =
  Some (Ok ["a"], tt).
Proof.
  refine (proj1 (proj2 (get_offer_ids_terminates unit)
                   two_page_catalogue "client" "token" tt tt
                   [{| Seller.result_items :=
                         [{| Seller.product_offer_id := "a" |}];
                       Seller.result_total := 1;
                       Seller.result_last_id := "page2" |}]
                   _ 1%nat) _).
  - apply seller_last_page; reflexivity.
  - cbn. lia.
Defined.

Example market_get_offer_ids_sample :
  Market.get_offer_ids nat
    (fun page _ _ calls =>
       (Ok (if String.eqb page EmptyString
            then {| Market.offerMappingEntries :=
                      [{| Market.entry_offer := {| Market.shopSku := "a" |} |}];
                    Market.paging := {| Market.nextPageToken := Some "p2" |} |}
            else {| Market.offerMappingEntries :=
                      [{| Market.entry_offer := {| Market.shopSku := "b" |} |}];
                    Market.paging := {| Market.nextPageToken := None |} |}),
        S calls))
    2 "campaign" "token" 0%nat =
  Some (Ok ["a"; "b"], 2%nat).
Proof. reflexivity. Qed.

(** ** The caller's list of offer ids *)

(** After [create_stocks], no row of the feed carries an id of the
    caller's list any more. *)
Lemma known_after_create_stocks (ws : list watch) (ids : list string) :
  filter (known (unmatched ws ids)) ws = [].
Proof.
  assert (H : forall w, In w ws -> known (unmatched ws ids) w = false).
  { intros w Hw. unfold known, unmatched. rewrite py_in_filter.
    assert (E : py_in (code w) (map code ws) = true)
      by (apply py_in_In; now apply in_map).
    rewrite E. apply andb_false_r. }
  generalize (known (unmatched ws ids)) H. clear H. intros p Hp.
  induction ws as [|w ws' IH]; cbn [filter]; [reflexivity|].
  rewrite (Hp w (or_introl eq_refl)). apply IH.
  intros w' Hw'. apply Hp. now right.
Qed.

(** The price pass that follows the stock pass on the same list, as in
    [main] of seller.py, finds no offer to price. *)
Lemma create_prices_after_create_stocks (ws : list watch)
    (ids : list string) :
  NoDup ids ->
  (forall w, In w ws -> exists n, stock_count w = Ok n) ->
  snd (Seller.create_stocks ws ids) = unmatched ws ids /\
  Seller.create_prices ws (snd (Seller.create_stocks ws ids)) = Ok [].
Proof.
  intros Hnd Hok.
  rewrite create_stocks_spec;
    [|exact Hnd | intros w Hw; apply Hok; now apply (matched_In ws ids [] w)].
  cbn [snd]. split; [reflexivity|].
  rewrite seller_create_prices_eq.
  now rewrite known_after_create_stocks.
Qed.

(** C4.  [create_stocks] works on the caller's list: run on the offer ids
    ["123"; "456"] with a feed that carries "123", it leaves ["456"] in
    the caller's list (in seller.py and in market.py); a second run on
    that list gives another result; [create_prices] on the original ids
    prices "123", on the list left by [create_stocks] it prices nothing,
    and [main] of seller.py, which passes that list on, submits the
    stocks and no price. *)
Theorem create_stocks_consumes_offer_ids :
  let ws := [{| kod := VStr "123"; kolichestvo := VStr ">10";
                tsena := VStr "5990.00" |}] in
  let offer_ids := ["123"; "456"] in
  let stocks := [{| Seller.offer_id := "123"; Seller.stock := 100 |};
                 {| Seller.offer_id := "456"; Seller.stock := 0 |}] in
  Seller.create_stocks ws offer_ids = (Ok stocks, ["456"]) /\
  Seller.create_stocks ws ["456"] =
    (Ok [{| Seller.offer_id := "456"; Seller.stock := 0 |}], ["456"]) /\
  (forall warehouse_id date,
     snd (Market.create_stocks ws offer_ids warehouse_id date) = ["456"]) /\
  Seller.create_prices ws offer_ids =
    Ok [{| Seller.auto_action_enabled := "UNKNOWN";
           Seller.currency_code := "RUB";
           Seller.price_offer_id := "123";
           Seller.old_price := "0";
           Seller.price := "5990" |}] /\
  Seller.create_prices ws ["456"] = Ok [] /\
  Seller.main recording_world (one_page offer_ids) record_stocks
    record_prices (fixed_feed ws) 1 "client" "token" [] =
    Some (Ok tt, [SentStocks stocks]).
Proof. cbv zeta. repeat split; reflexivity. Qed.

(** [main] of seller.py never reaches [update_price]: with offer ids free
    of duplicates and quantities that normalise, what it does is the same
    whatever the price collaborator. *)
Lemma main_submits_no_price (world : Type)
    (get_product_list : string -> string -> string -> world ->
                        result Seller.page * world)
    (update_stocks : list Seller.stock_entry -> string -> string -> world ->
                     result unit * world)
    (update_price update_price' :
       list Seller.price_entry -> string -> string -> world ->
       result unit * world)
    (download_stock : world -> result (list watch) * world)
    (fuel : nat) (client_id seller_token : string) (w w1 w2 : world)
    (ids : list string) (ws : list watch) :
  Seller.get_offer_ids world get_product_list fuel client_id seller_token w
  = Some (Ok ids, w1) ->
  download_stock w1 = (Ok ws, w2) ->
  NoDup ids ->
  (forall x, In x ws -> exists n, stock_count x = Ok n) ->
  Seller.main world get_product_list update_stocks update_price
    download_stock fuel client_id seller_token w =
  Seller.main world get_product_list update_stocks update_price'
    download_stock fuel client_id seller_token w.
Proof.
  intros Hids Hfeed Hnd Hok.
  destruct (create_prices_after_create_stocks ws ids Hnd Hok) as [_ Hp].
  unfold Seller.main, try_except.
  rewrite !(bind_ok _ _ _ _ _ Hids).
  assert (Hcall : call download_stock w1 = Some (Ok ws, w2))
    by (unfold call; now rewrite Hfeed).
  rewrite !(bind_ok _ _ _ _ _ Hcall).
  destruct (Seller.create_stocks ws ids) as [r ids'] eqn:E.
  cbn [snd] in Hp. unfold bind, lift. rewrite Hp.
  destruct r as [stocks|e]; [|reflexivity].
  destruct (Seller.divide stocks 100) as [batches|e]; [|reflexivity].
  destruct (for_each batches _ w2) as [[[[]|e] w3]|]; reflexivity.
Qed.

(** * Further properties *)

(** ** Prices *)

Lemma re_sub_non_digits_fixed (d : string) :
  all_chars is_digit d = true -> re_sub_non_digits d = d.
Proof.
  induction d as [|c d IH]; cbn [all_chars re_sub_non_digits];
    [reflexivity|].
  intros H. apply andb_true_iff in H. destruct H as [Hc Hd].
  now rewrite Hc, IH.
Qed.

Lemma before_dot_fixed (a : string) :
  all_chars not_dot a = true -> before_dot a = a.
Proof.
  induction a as [|c a IH]; cbn [all_chars before_dot]; [reflexivity|].
  intros H. apply andb_true_iff in H. destruct H as [Hc Ha].
  unfold not_dot in Hc. apply negb_true_iff in Hc. now rewrite Hc, IH.
Qed.

Lemma before_dot_cut (a b : string) :
  all_chars not_dot a = true ->
  before_dot (a ++ String "." b)%string = a.
Proof.
  induction a as [|c a IH]; cbn [all_chars before_dot String.append].
  - reflexivity.
  - intros H. apply andb_true_iff in H. destruct H as [Hc Ha].
    unfold not_dot in Hc. apply negb_true_iff in Hc. now rewrite Hc, IH.
Qed.

Lemma digit_not_dot (c : ascii) : is_digit c = true -> not_dot c = true.
Proof.
  destruct c as [[|] [|] [|] [|] [|] [|] [|] [|]]; cbn;
    intros H; try discriminate H; reflexivity.
Qed.

(** X1.  [price_conversion] on a string never fails; what it returns is
    made of ASCII digits only, is left unchanged by a second conversion,
    and does not depend on what follows the first dot of the price. *)
Theorem price_conversion_digits (s : string) :
  exists d,
    Seller.price_conversion (VStr s) = Ok d /\
    all_chars is_digit d = true /\
    Seller.price_conversion (VStr d) = Ok d /\
    forall a b,
      s = (a ++ String "." b)%string -> all_chars not_dot a = true ->
      Seller.price_conversion (VStr a) = Ok d.
Proof.
  exists (re_sub_non_digits (before_dot s)).
  pose proof (re_sub_non_digits_digits (before_dot s)) as Hd.
  split; [apply price_conversion_str|]. split; [exact Hd|]. split.
  - rewrite price_conversion_str. f_equal.
    rewrite before_dot_fixed
      by (apply all_chars_impl with (p := is_digit);
          [apply digit_not_dot | exact Hd]).
    now apply re_sub_non_digits_fixed.
  - intros a b -> Ha. rewrite price_conversion_str.
    now rewrite before_dot_cut, before_dot_fixed.
Qed.

Lemma price_conversion_digits_witness :
  Seller.price_conversion (VStr "5'990") = Ok "5990".
Proof.
  destruct (price_conversion_digits "5'990.00 руб.") as (d & H1 & _ & _ & H4).
  rewrite (H4 "5'990" "00 руб." eq_refl eq_refl).
  rewrite <- H1. reflexivity.
Defined.

Lemma decimal_value_nonneg (s : string) :
  all_chars is_digit s = true ->
  forall acc, 0 <= acc -> 0 <= decimal_value s acc.
Proof.
  induction s as [|c s IH]; cbn [all_chars decimal_value]; intros H acc Hacc;
    [exact Hacc|].
  apply andb_true_iff in H. destruct H as [Hc Hs]. apply IH; [exact Hs|].
  pose proof (digit_value_nonneg c Hc). lia.
Qed.

(** X2.  The price that market.py sends, [int(price_conversion(price))]:
    on a string it fails, with [ValueError], exactly when no digit stands
    before the first dot; otherwise it is the number that the digits
    returned by [price_conversion] denote, and it is never negative (a
    minus sign in the price is dropped with the other characters). *)
Theorem market_price_value (s : string) :
  (Market.price_of (VStr s) = Err ValueError <->
   re_sub_non_digits (before_dot s) = EmptyString) /\
  (forall e, Market.price_of (VStr s) = Err e -> e = ValueError) /\
  (forall v, Market.price_of (VStr s) = Ok v ->
     0 <= v /\
     exists d, Seller.price_conversion (VStr s) = Ok d /\
               py_int_str d = Ok v).
Proof.
  pose proof (market_price_of_str s) as H.
  pose proof (re_sub_non_digits_digits (before_dot s)) as Hd.
  pose proof (py_int_str_digits _ Hd) as Hint.
  destruct (re_sub_non_digits (before_dot s)) as [|c d] eqn:E;
    rewrite H; split; [|split| |split].
  - split; reflexivity.
  - now intros e [= <-].
  - discriminate.
  - split; discriminate.
  - discriminate.
  - intros v Hv.
    assert (Ev : v = decimal_value (String c d) 0) by congruence.
    split.
    + rewrite Ev. apply decimal_value_nonneg; [exact Hd | lia].
    + exists (String c d). split; [|now rewrite Ev].
      rewrite price_conversion_str. now rewrite E.
Qed.

Lemma market_price_value_witness :
  0 <= 5 /\
  exists d, Seller.price_conversion (VStr "-5.00") = Ok d /\
            py_int_str d = Ok 5.
Proof.
  apply (proj2 (proj2 (market_price_value "-5.00")) 5). reflexivity.
Defined.

(** ** Rows and offer ids that do not meet *)

Lemma create_stocks_of_loop (ws ws' : list watch) (ids : list string) :
  Seller.create_stocks_loop ws [] ids = Seller.create_stocks_loop ws' [] ids ->
  Seller.create_stocks ws ids = Seller.create_stocks ws' ids.
Proof. intros H. unfold Seller.create_stocks. now rewrite H. Qed.

(** X3.  A row whose code is not a known offer id is inert in both passes
    and in both files: [create_stocks] and [create_prices] give what they
    give on the feed without that row, whatever its quantity and price,
    which are never parsed. *)
Theorem unknown_row_inert (pre post : list watch) (w : watch)
    (ids : list string) :
  ~ In (code w) ids ->
  Seller.create_stocks (pre ++ w :: post) ids =
    Seller.create_stocks (pre ++ post) ids /\
  (forall warehouse_id date,
     Market.create_stocks (pre ++ w :: post) ids warehouse_id date =
     Market.create_stocks (pre ++ post) ids warehouse_id date) /\
  Seller.create_prices (pre ++ w :: post) ids =
    Seller.create_prices (pre ++ post) ids /\
  Market.create_prices (pre ++ w :: post) ids =
    Market.create_prices (pre ++ post) ids.
Proof.
  intros Hw.
  assert (E : Seller.create_stocks (pre ++ w :: post) ids =
              Seller.create_stocks (pre ++ post) ids).
  { apply create_stocks_of_loop. rewrite !create_stocks_loop_app.
    destruct (Seller.create_stocks_loop pre [] ids) as [[a1|e] i1] eqn:Hpre;
      [|reflexivity].
    apply create_stocks_loop_incl in Hpre. destruct Hpre as [Hincl _].
    apply create_stocks_loop_skip. intros Hin. apply Hw, Hincl, Hin. }
  assert (F : filter (known ids) (pre ++ w :: post) =
              filter (known ids) (pre ++ post)).
  { rewrite !filter_app. cbn [filter]. unfold known at 2.
    apply py_in_not_In in Hw. now rewrite Hw. }
  split; [exact E|]. split; [|split].
  - intros warehouse_id date. now rewrite !market_create_stocks_sim, E.
  - now rewrite !seller_create_prices_eq, F.
  - now rewrite !market_create_prices_eq, F.
Qed.

Lemma unknown_row_inert_witness :
  Seller.create_stocks
    [{| kod := VStr "9"; kolichestvo := VStr "abc"; tsena := VNone |}]
    ["1"] =
  Seller.create_stocks [] ["1"].
Proof.
  refine (proj1 (unknown_row_inert [] []
    {| kod := VStr "9"; kolichestvo := VStr "abc"; tsena := VNone |}
    ["1"] _)).
  cbn. intuition discriminate.
Defined.

Lemma create_stocks_loop_disjoint (ws : list watch) (ids : list string) :
  (forall w, In w ws -> ~ In (code w) ids) ->
  forall acc, Seller.create_stocks_loop ws acc ids = (Ok acc, ids).
Proof.
  induction ws as [|w ws IH]; intros H acc; [reflexivity|].
  rewrite create_stocks_loop_skip by (apply H; now left).
  apply IH. intros w' Hw'. apply H. now right.
Qed.

(** X4.  When no row of the feed carries a known offer id (an empty feed,
    or the feed of another shop), [create_stocks] sets every offer to
    stock zero, in the order of the offer ids, and leaves the caller's list
    as it was; [create_prices] returns no price.  No quantity or price of
    the feed is parsed. *)
Theorem foreign_feed_zeroes_stocks (ws : list watch) (ids : list string) :
  (forall w, In w ws -> ~ In (code w) ids) ->
  Seller.create_stocks ws ids = (Ok (map seller_zero ids), ids) /\
  (forall warehouse_id date,
     Market.create_stocks ws ids warehouse_id date =
     (Ok (map (fun i => Market.stock_of warehouse_id date i 0) ids), ids)) /\
  Seller.create_prices ws ids = Ok [] /\
  Market.create_prices ws ids = Ok [].
Proof.
  intros H.
  assert (E : Seller.create_stocks ws ids = (Ok (map seller_zero ids), ids)).
  { unfold Seller.create_stocks.
    now rewrite (create_stocks_loop_disjoint ws ids H []). }
  assert (F : filter (known ids) ws = []).
  { clear E. induction ws as [|w ws IH]; cbn [filter]; [reflexivity|].
    unfold known at 1.
    assert (Hw : py_in (code w) ids = false)
      by (apply py_in_not_In, H; now left).
    rewrite Hw. apply IH. intros w' Hw'. apply H. now right. }
  split; [exact E|]. split; [|split].
  - intros warehouse_id date. rewrite market_create_stocks_sim, E.
    cbn [fst snd result_map]. now rewrite map_map.
  - now rewrite seller_create_prices_eq, F.
  - now rewrite market_create_prices_eq, F.
Qed.

Lemma foreign_feed_zeroes_stocks_witness :
  Seller.create_stocks
    [{| kod := VStr "9"; kolichestvo := VStr "abc"; tsena := VNone |}]
    ["1"; "2"] =
  (Ok [{| Seller.offer_id := "1"; Seller.stock := 0 |};
       {| Seller.offer_id := "2"; Seller.stock := 0 |}], ["1"; "2"]).
Proof.
  refine (proj1 (foreign_feed_zeroes_stocks _ ["1"; "2"] _)).
  intros w [<-|[]]. cbn. intuition discriminate.
Defined.

(** ** Failures and duplicates in [create_stocks] *)

(** X5.  With known offer ids free of duplicates, [create_stocks] fails on
    the first row of the feed that is honoured and whose quantity does not
    normalise: it raises the error of that row, looks at no later row, and
    leaves the caller's list without the ids that the earlier rows have
    matched. *)
Theorem create_stocks_first_failure (pre post : list watch) (w : watch)
    (ids : list string) (e : pyerr) :
  NoDup ids ->
  (forall x, In x (matched [] pre ids) -> exists n, stock_count x = Ok n) ->
  In (code w) ids ->
  ~ In (code w) (map code pre) ->
  stock_count w = Err e ->
  Seller.create_stocks (pre ++ w :: post) ids = (Err e, unmatched pre ids) /\
  forall warehouse_id date,
    Market.create_stocks (pre ++ w :: post) ids warehouse_id date =
    (Err e, unmatched pre ids).
Proof.
  intros Hnd Hok Hin Hpre He.
  assert (E : Seller.create_stocks (pre ++ w :: post) ids =
              (Err e, unmatched pre ids)).
  { unfold Seller.create_stocks. rewrite create_stocks_loop_app.
    pose proof (create_stocks_loop_spec ids Hnd pre [] [] Hok) as H.
    cbn [py_in existsb negb] in H.
    rewrite (forallb_filter_id (fun _ => true) ids) in H
      by (apply forallb_forall; reflexivity).
    rewrite H, unmatched_rev. cbn [Seller.create_stocks_loop List.app].
    fold (code w).
    assert (Hm : py_in (code w) (unmatched pre ids) = true).
    { unfold unmatched. rewrite py_in_filter. apply andb_true_iff. split.
      - now apply py_in_In.
      - apply negb_true_iff. now apply py_in_not_In. }
    now rewrite Hm, He. }
  split; [exact E|].
  intros warehouse_id date. now rewrite market_create_stocks_sim, E.
Qed.

Lemma create_stocks_first_failure_witness :
  Seller.create_stocks
    [{| kod := VStr "1"; kolichestvo := VStr "5"; tsena := VNone |};
     {| kod := VStr "2"; kolichestvo := VStr "many"; tsena := VNone |};
     {| kod := VStr "3"; kolichestvo := VStr "7"; tsena := VNone |}]
    ["1"; "2"; "3"] =
  (Err ValueError, ["2"; "3"]).
Proof.
  refine (proj1 (create_stocks_first_failure
    [{| kod := VStr "1"; kolichestvo := VStr "5"; tsena := VNone |}]
    [{| kod := VStr "3"; kolichestvo := VStr "7"; tsena := VNone |}]
    {| kod := VStr "2"; kolichestvo := VStr "many"; tsena := VNone |}
    ["1"; "2"; "3"] ValueError _ _ _ _ _)).
  - repeat constructor; cbn; intuition discriminate.
  - intros x [<-|[]]. exists 5. reflexivity.
  - cbn. tauto.
  - cbn. intuition discriminate.
  - reflexivity.
Defined.

(** X6.  Whatever the feed and the offer ids, duplicates included: when
    [create_stocks] returns, the offer ids of its decisions are a
    permutation of the offer ids it was given, so there are as many
    decisions as offer ids, and market.py returns the same ids in the same
    order. *)
Theorem create_stocks_one_per_listed_id (ws : list watch)
    (ids ids' : list string) (stocks : list Seller.stock_entry) :
  Seller.create_stocks ws ids = (Ok stocks, ids') ->
  Permutation (map Seller.offer_id stocks) ids /\
  List.length stocks = List.length ids /\
  forall warehouse_id date,
  exists mstocks,
    Market.create_stocks ws ids warehouse_id date = (Ok mstocks, ids') /\
    map Market.sku mstocks = map Seller.offer_id stocks.
Proof.
  intros H. pose proof (create_stocks_perm _ _ _ _ H) as P.
  split; [exact P|]. split.
  - rewrite <- (length_map Seller.offer_id). now apply Permutation_length.
  - intros warehouse_id date. eexists. split.
    + rewrite market_create_stocks_sim, H. reflexivity.
    + rewrite map_map. reflexivity.
Qed.

Lemma create_stocks_one_per_listed_id_witness :
  Permutation
    (map Seller.offer_id
       [{| Seller.offer_id := "1"; Seller.stock := 5 |};
        {| Seller.offer_id := "2"; Seller.stock := 0 |};
        {| Seller.offer_id := "1"; Seller.stock := 0 |}])
    ["1"; "2"; "1"].
Proof.
  refine (proj1 (create_stocks_one_per_listed_id
    [{| kod := VStr "1"; kolichestvo := VStr "5"; tsena := VNone |}]
    ["1"; "2"; "1"] ["2"; "1"] _ _)).
  reflexivity.
Defined.

(** X7.  A quantity cell that holds an [int], as a numeric cell of the
    sheet does: the count one gives stock 0 and every other integer is
    passed on as it is, so such a cell never gives stock 1; a row without
    quantity raises [TypeError]. *)
Theorem stock_count_int_cell (w : watch) :
  (forall z, kolichestvo w = VInt z ->
     stock_count w = Ok (if z =? 1 then 0 else z) /\
     stock_count w <> Ok 1) /\
  (kolichestvo w = VNone -> stock_count w = Err TypeError).
Proof.
  destruct w as [k q p]. cbn [kolichestvo]. split.
  - intros z ->. rewrite stock_count_int. split; [reflexivity|].
    destruct (Z.eqb_spec z 1); intros [= H]; lia.
  - intros ->. reflexivity.
Qed.

Lemma stock_count_int_cell_witness :
  stock_count {| kod := VInt 123; kolichestvo := VInt 5; tsena := VNone |}
  = Ok 5.
Proof.
  apply (proj1 (proj1 (stock_count_int_cell
    {| kod := VInt 123; kolichestvo := VInt 5; tsena := VNone |}) 5 eq_refl)).
Defined.

(** ** The two marketplaces side by side *)

Lemma market_price_of_ok (v : pyval) :
  (exists n, Market.price_of v = Ok n) <-> has_price_digits v = true.
Proof.
  destruct v as [|z|s]; cbn [has_price_digits].
  - split; [intros (n & H); discriminate H | discriminate].
  - split; [intros (n & H); discriminate H | discriminate].
  - rewrite market_price_of_str.
    destruct (re_sub_non_digits (before_dot s)); split;
      try discriminate; try reflexivity.
    + intros (n & H). discriminate H.
    + intros _. eauto.
Qed.

Lemma map_result_all_ok {A B : Type} (f : A -> result B) (l : list A)
    (r : list B) :
  map_result f l = Ok r -> forall a, In a l -> exists b, f a = Ok b.
Proof.
  revert r. induction l as [|x l IH]; cbn [map_result]; intros r H a;
    [contradiction|].
  destruct (f x) as [b|e] eqn:Hx; [|discriminate].
  destruct (map_result f l) as [r'|e]; [|discriminate].
  intros [<-|Ha]; [eauto | now apply (IH r')].
Qed.

(** X8.  [create_prices] of market.py returns exactly when every row whose
    code is a known offer id has a price that is a string with a digit
    before its first dot; the prices of the other rows are not looked
    at. *)
Theorem market_create_prices_succeeds (ws : list watch) (ids : list string) :
  (exists prices, Market.create_prices ws ids = Ok prices) <->
  (forall w, In w ws -> known ids w = true ->
             has_price_digits (tsena w) = true).
Proof.
  rewrite market_create_prices_eq. split.
  - intros (prices & H) w Hw Hk.
    destruct (map_result_all_ok _ _ _ H w) as (m & Hm).
    { apply filter_In. now split. }
    apply market_price_of_ok. unfold market_price in Hm.
    destruct (Market.price_of (tsena w)) as [n|e]; [eauto | discriminate Hm].
  - intros H. apply map_result_total. intros w Hw.
    apply filter_In in Hw. destruct Hw as [Hw Hk].
    destruct (proj2 (market_price_of_ok (tsena w)) (H w Hw Hk)) as (n & Hn).
    unfold market_price. rewrite Hn. cbn [result_map]. eauto.
Qed.

Lemma market_create_prices_succeeds_witness :
  exists prices,
    Market.create_prices
      [{| kod := VStr "1"; kolichestvo := VNone; tsena := VStr "50.00" |};
       {| kod := VStr "9"; kolichestvo := VNone; tsena := VStr "free" |}]
      ["1"] = Ok prices.
Proof.
  apply (proj2 (market_create_prices_succeeds _ ["1"])).
  intros w [<-|[<-|[]]]; [reflexivity | discriminate].
Defined.

(** X9.  seller.py and market.py decide alike: on the same feed and offer
    ids, [create_stocks] of market.py returns the decisions of seller.py in
    the same order, each as an entry for the warehouse, or raises the same
    error, and both leave the caller's list in the same state. *)
Theorem create_stocks_same_decisions (ws : list watch) (ids : list string)
    (warehouse_id date : string) :
  (forall stocks ids',
     Seller.create_stocks ws ids = (Ok stocks, ids') ->
     Market.create_stocks ws ids warehouse_id date =
     (Ok (map (fun e => Market.stock_of warehouse_id date
                          (Seller.offer_id e) (Seller.stock e)) stocks),
      ids')) /\
  (forall e ids',
     Seller.create_stocks ws ids = (Err e, ids') ->
     Market.create_stocks ws ids warehouse_id date = (Err e, ids')).
Proof.
  split; intros r ids' H; now rewrite market_create_stocks_sim, H.
Qed.

Lemma create_stocks_same_decisions_witness :
  Market.create_stocks
    [{| kod := VStr "1"; kolichestvo := VStr "5"; tsena := VNone |}]
    ["1"; "2"] "w" "2024-01-01T00:00:00Z" =
  (Ok [Market.stock_of "w" "2024-01-01T00:00:00Z" "1" 5;
       Market.stock_of "w" "2024-01-01T00:00:00Z" "2" 0], ["2"]).
Proof.
  apply (proj1 (create_stocks_same_decisions
    [{| kod := VStr "1"; kolichestvo := VStr "5"; tsena := VNone |}]
    ["1"; "2"] "w" "2024-01-01T00:00:00Z")
    [{| Seller.offer_id := "1"; Seller.stock := 5 |};
     {| Seller.offer_id := "2"; Seller.stock := 0 |}] ["2"]).
  reflexivity.
Defined.

Lemma map_result_prices_agree (l : list watch)
    (mprices : list Market.price_entry) :
  map_result market_price l = Ok mprices ->
  exists sprices,
    map_result seller_price l = Ok sprices /\ Forall2 same_price sprices mprices.
Proof.
  revert mprices. induction l as [|w l IH]; cbn [map_result]; intros mprices.
  - intros [= <-]. exists []. split; [reflexivity | constructor].
  - unfold market_price at 1, seller_price at 1, Market.price_of.
    destruct (Seller.price_conversion (tsena w)) as [d|e];
      cbn [result_map]; [|discriminate].
    cbn [py_int]. destruct (py_int_str d) as [v|e] eqn:Hv;
      cbn [result_map]; [|discriminate].
    destruct (map_result market_price l) as [mp|e]; [|discriminate].
    intros [= <-]. destruct (IH mp eq_refl) as (sp & -> & Hall).
    eexists. split; [reflexivity|]. constructor; [|exact Hall].
    split; [reflexivity | exact Hv].
Qed.

(** X10.  Whenever [create_prices] of market.py returns, [create_prices]
    of seller.py returns as well on the same feed and offer ids, with
    entries for the same offers in the same order, and the number that
    market.py sends is the price text that seller.py sends, read as an
    integer. *)
Theorem create_prices_agree (ws : list watch) (ids : list string)
    (mprices : list Market.price_entry) :
  Market.create_prices ws ids = Ok mprices ->
  exists sprices,
    Seller.create_prices ws ids = Ok sprices /\
    Forall2 same_price sprices mprices.
Proof.
  rewrite market_create_prices_eq, seller_create_prices_eq.
  apply map_result_prices_agree.
Qed.

Lemma create_prices_agree_witness :
  exists sprices,
    Seller.create_prices
      [{| kod := VStr "1"; kolichestvo := VNone; tsena := VStr "5'990.00" |}]
      ["1"] = Ok sprices /\
    Forall2 same_price sprices
      [{| Market.price_id := "1";
          Market.price := {| Market.value := 5990;
                             Market.currencyId := "RUR" |} |}].
Proof.
  apply (create_prices_agree
    [{| kod := VStr "1"; kolichestvo := VNone; tsena := VStr "5'990.00" |}]
    ["1"]).
  reflexivity.
Defined.

(** X11.  The entries that [create_stocks] of market.py returns all have
    the shape the report relies on: the warehouse id of the call, and
    exactly one item, of type "FIT", stamped with the one date of the
    call; so the test [items[0].count != 0] of [upload_stocks] never raises
    on them. *)
Theorem market_entries_well_formed (ws : list watch) (ids ids' : list string)
    (warehouse_id date : string) (stocks : list Market.stock_entry) :
  Market.create_stocks ws ids warehouse_id date = (Ok stocks, ids') ->
  Forall (fun e =>
            Market.warehouseId e = warehouse_id /\
            exists n, Market.items e =
                      [{| Market.count := n; Market.item_type := "FIT";
                          Market.updatedAt := date |}]) stocks /\
  py_filter Market.count_is_not_zero stocks =
    Ok (filter market_not_empty stocks).
Proof.
  intros H. split.
  - rewrite market_create_stocks_sim in H.
    destruct (fst (Seller.create_stocks ws ids)) as [s|e];
      cbn [result_map] in H; [|discriminate H].
    injection H as <- _. apply Forall_forall. intros e He.
    apply in_map_iff in He. destruct He as (e0 & <- & _).
    split; [reflexivity | eexists; reflexivity].
  - apply py_filter_spec. eapply market_stocks_have_items. exact H.
Qed.

Lemma market_entries_well_formed_witness :
  py_filter Market.count_is_not_zero
    [Market.stock_of "w" "d" "1" 5; Market.stock_of "w" "d" "2" 0] =
  Ok (filter market_not_empty
        [Market.stock_of "w" "d" "1" 5; Market.stock_of "w" "d" "2" 0]).
Proof.
  refine (proj2 (market_entries_well_formed
    [{| kod := VStr "1"; kolichestvo := VStr "5"; tsena := VNone |}]
    ["1"; "2"] ["2"] "w" "d" _ _)).
  reflexivity.
Defined.

(** ** Batches *)

(** X12.  A chunk size that is not positive: [divide] raises [ValueError]
    for the size zero, and for a negative size it yields no chunk at all,
    whatever the list, so that nothing of the list would be submitted. *)
Theorem divide_non_positive {A : Type} (lst : list A) (n : Z) :
  n <= 0 ->
  Seller.divide lst n = if n =? 0 then Err ValueError else Ok [].
Proof.
  intros Hn. unfold Seller.divide, py_range, py_range_len.
  destruct (Z.eqb_spec n 0) as [->|N]; [reflexivity|].
  destruct (Z.ltb_spec 0 n) as [?|_]; [lia|].
  destruct (Z.ltb_spec (Z.of_nat (List.length lst)) 0) as [?|_]; [lia|].
  reflexivity.
Qed.

Lemma divide_non_positive_witness :
  Seller.divide [1; 2; 3] (-2) = Ok [].
Proof.
  apply (divide_non_positive [1; 2; 3] (-2)). lia.
Defined.

Lemma chunk_list_bounded {A : Type} (lst : list A) (n : Z) :
  0 < n ->
  Forall (fun c => (0 < List.length c)%nat /\ Z.of_nat (List.length c) <= n)
    (map (chunk lst (Z.to_nat n))
       (seq 0 (py_range_len 0 (Z.of_nat (List.length lst)) n))).
Proof.
  intros Hn.
  pose proof (chunk_count_bounds (List.length lst) n Hn) as Hm.
  cbv zeta in Hm. destruct Hm as (Hcover & Hzero & Hpos).
  apply Forall_forall. intros c Hc. apply in_map_iff in Hc.
  destruct Hc as (k & <- & Hk). apply in_seq in Hk.
  rewrite chunk_length.
  assert (Hlen : (0 < List.length lst)%nat).
  { destruct (List.length lst); [|lia].
    rewrite (Hzero eq_refl) in Hk. lia. }
  destruct (Hpos Hlen) as [_ Hlast].
  assert (k * Z.to_nat n <=
          (py_range_len 0 (Z.of_nat (List.length lst)) n - 1) * Z.to_nat n)%nat
    by (apply Nat.mul_le_mono_r; lia).
  lia.
Qed.

(** What [divide] yields for a positive size, in one statement. *)
Lemma divide_batches {A : Type} (lst : list A) (n : Z) :
  0 < n ->
  exists batches,
    Seller.divide lst n = Ok batches /\
    List.concat batches = lst /\
    Forall (fun c => (0 < List.length c)%nat /\ Z.of_nat (List.length c) <= n)
      batches.
Proof.
  intros Hn. eexists. split; [now apply divide_chunk_list|]. split.
  - apply concat_chunks.
    now destruct (chunk_count_bounds (List.length lst) n Hn) as (H & _).
  - now apply chunk_list_bounded.
Qed.

(** X13.  For a positive chunk size [n], no chunk that [divide] yields is
    empty and none holds more than [n] elements, and the number of chunks
    (the number of submissions an upload makes) is the length of the list
    divided by [n], rounded up. *)
Theorem divide_batch_bounds {A : Type} (lst : list A) (n : Z)
    (chunks : list (list A)) :
  0 < n ->
  Seller.divide lst n = Ok chunks ->
  Forall (fun c => (0 < List.length c)%nat /\ Z.of_nat (List.length c) <= n)
    chunks /\
  Z.of_nat (List.length chunks) = (Z.of_nat (List.length lst) + n - 1) / n.
Proof.
  intros Hn. rewrite divide_chunk_list by exact Hn. intros [= <-]. split.
  - now apply chunk_list_bounded.
  - rewrite length_map, length_seq. unfold py_range_len.
    destruct (Z.ltb_spec 0 n) as [_|?]; [|lia].
    destruct (Z.ltb_spec 0 (Z.of_nat (List.length lst))) as [Hl|Hl].
    + rewrite Z.sub_0_r.
      replace (Z.of_nat (List.length lst) + n - 1)
        with (Z.of_nat (List.length lst) - 1 + 1 * n) by lia.
      rewrite Z.div_add by lia.
      rewrite Z2Nat.id; [reflexivity|].
      assert (0 <= (Z.of_nat (List.length lst) - 1) / n)
        by (apply Z.div_pos; lia).
      lia.
    + replace (Z.of_nat (List.length lst)) with 0 by lia.
      rewrite Z.div_small by lia. reflexivity.
Qed.

Lemma divide_batch_bounds_witness :
  Z.of_nat (List.length [[1; 2]; [3]]) =
  (Z.of_nat (List.length [1; 2; 3]) + 2 - 1) / 2.
Proof.
  refine (proj2 (divide_batch_bounds [1; 2; 3] 2 [[1; 2]; [3]] _ _)).
  - lia.
  - reflexivity.
Defined.

(** ** Uploads *)

Lemma for_each_app {W A : Type} (xs ys : list A) (body : A -> M W unit)
    (w : W) :
  for_each (xs ++ ys) body w =
  bind (for_each xs body) (fun _ => for_each ys body) w.
Proof.
  revert w. induction xs as [|x xs IH]; intros w; cbn [List.app for_each].
  - reflexivity.
  - unfold bind in *.
    destruct (body x w) as [[[[]|e] w1]|]; [apply IH | reflexivity ..].
Qed.

(** X14.  [upload_prices], once the offer ids are fetched and the prices
    built: it submits the prices in their order, cut into consecutive
    batches none of which is empty or holds more than 1000 entries (500 in
    market.py), one call to [update_price] per batch, and then returns the
    whole list of prices. *)
Theorem upload_prices_batches (world : Type) :
  (forall get_product_list update_price fuel ws client_id seller_token
          (w w1 : world) ids prices,
     Seller.get_offer_ids world get_product_list fuel client_id
       seller_token w = Some (Ok ids, w1) ->
     Seller.create_prices ws ids = Ok prices ->
     exists batches,
       List.concat batches = prices /\
       Forall (fun b => (0 < List.length b <= 1000)%nat) batches /\
       Seller.upload_prices world get_product_list update_price fuel ws
         client_id seller_token w =
       bind (for_each batches
               (fun b => call (update_price b client_id seller_token)))
            (fun _ => ret prices) w1) /\
  (forall get_product_list update_price fuel ws campaign_id market_token
          (w w1 : world) ids prices,
     Market.get_offer_ids world get_product_list fuel campaign_id
       market_token w = Some (Ok ids, w1) ->
     Market.create_prices ws ids = Ok prices ->
     exists batches,
       List.concat batches = prices /\
       Forall (fun b => (0 < List.length b <= 500)%nat) batches /\
       Market.upload_prices world get_product_list update_price fuel ws
         campaign_id market_token w =
       bind (for_each batches
               (fun b => call (update_price b campaign_id market_token)))
            (fun _ => ret prices) w1).
Proof.
  split.
  - intros gpl up fuel ws c t w w1 ids prices Hids Hp.
    destruct (divide_batches prices 1000 ltac:(lia)) as (bs & Hd & Hc & Hb).
    exists bs. split; [exact Hc|]. split.
    + eapply Forall_impl; [|exact Hb]. cbv beta. lia.
    + unfold Seller.upload_prices. rewrite (bind_ok _ _ _ _ _ Hids).
      rewrite Hp. unfold bind, lift. rewrite Hd. reflexivity.
  - intros gpl up fuel ws c t w w1 ids prices Hids Hp.
    destruct (divide_batches prices 500 ltac:(lia)) as (bs & Hd & Hc & Hb).
    exists bs. split; [exact Hc|]. split.
    + eapply Forall_impl; [|exact Hb]. cbv beta. lia.
    + unfold Market.upload_prices. rewrite (bind_ok _ _ _ _ _ Hids).
      rewrite Hp. unfold bind, lift. rewrite Hd. reflexivity.
Qed.

Lemma upload_prices_batches_witness :
  exists batches,
    List.concat batches =
      [{| Seller.auto_action_enabled := "UNKNOWN";
          Seller.currency_code := "RUB";
          Seller.price_offer_id := "123";
          Seller.old_price := "0";
          Seller.price := "5990" |}] /\
    Forall (fun b => (0 < List.length b <= 1000)%nat) batches.
Proof.
  destruct (proj1 (upload_prices_batches recording_world)
              (one_page ["123"; "456"]) record_prices 1%nat
              [{| kod := VStr "123"; kolichestvo := VStr ">10";
                  tsena := VStr "5990.00" |}]
              "client" "token" [] [] ["123"; "456"]
              [{| Seller.auto_action_enabled := "UNKNOWN";
                  Seller.currency_code := "RUB";
                  Seller.price_offer_id := "123";
                  Seller.old_price := "0";
                  Seller.price := "5990" |}]
              eq_refl eq_refl) as (batches & H1 & H2 & _).
  exists batches. split; assumption.
Defined.

(** X15.  [upload_stocks] stops at the first submission that fails: when
    the batches before it have gone through and [update_stocks] raises on
    a batch, [upload_stocks] raises that error in the world that the
    failing call leaves; the later batches are not submitted and nothing
    is returned. *)
Theorem upload_stocks_stops_at_failure (world : Type)
    (get_product_list : string -> string -> string -> world ->
                        result Seller.page * world)
    (update_stocks : list Seller.stock_entry -> string -> string -> world ->
                     result unit * world)
    (fuel : nat) (ws : list watch) (client_id seller_token : string)
    (w w1 w2 w3 : world) (ids : list string)
    (stocks failing : list Seller.stock_entry)
    (done rest : list (list Seller.stock_entry)) (e : pyerr) :
  Seller.get_offer_ids world get_product_list fuel client_id seller_token w
  = Some (Ok ids, w1) ->
  fst (Seller.create_stocks ws ids) = Ok stocks ->
  Seller.divide stocks 100 = Ok (done ++ failing :: rest) ->
  for_each done
    (fun b => call (update_stocks b client_id seller_token)) w1 =
  Some (Ok tt, w2) ->
  update_stocks failing client_id seller_token w2 = (Err e, w3) ->
  Seller.upload_stocks world get_product_list update_stocks fuel ws
    client_id seller_token w = Some (Err e, w3).
Proof.
  intros Hids Hst Hdiv Hdone Hfail. unfold Seller.upload_stocks.
  rewrite (bind_ok _ _ _ _ _ Hids). rewrite Hst.
  unfold bind at 1, lift at 1. cbv beta iota. rewrite Hdiv.
  unfold bind at 1, lift at 1. cbv beta iota.
  unfold bind at 1. rewrite for_each_app. rewrite (bind_ok _ _ _ _ _ Hdone).
  cbn [for_each]. unfold bind at 1, call. now rewrite Hfail.
Qed.

Lemma upload_stocks_stops_at_failure_witness :
  Seller.upload_stocks recording_world (one_page ["123"]) refuse_stocks 1
    [{| kod := VStr "123"; kolichestvo := VStr ">10";
        tsena := VStr "5990.00" |}]
    "client" "token" [] = Some (Err HTTPError, []).
Proof.
  apply (upload_stocks_stops_at_failure recording_world
           (one_page ["123"]) refuse_stocks 1%nat
           [{| kod := VStr "123"; kolichestvo := VStr ">10";
               tsena := VStr "5990.00" |}]
           "client" "token" [] [] [] [] ["123"]
           [{| Seller.offer_id := "123"; Seller.stock := 100 |}]
           [{| Seller.offer_id := "123"; Seller.stock := 100 |}]
           [] [] HTTPError); reflexivity.
Defined.

(** ** What [get_offer_ids] has seen when it returns *)

Section StopTest.

Variable world : Type.

Lemma seller_loop_returns
    (get_product_list : string -> string -> string -> world ->
                        result Seller.page * world)
    (client_id seller_token : string) (fuel : nat) :
  forall last_id acc w product_list w',
    Seller.get_offer_ids_loop world get_product_list fuel client_id
      seller_token last_id acc w = Some (Ok product_list, w') ->
    exists last_id' w0 p,
      get_product_list last_id' client_id seller_token w0 = (Ok p, w') /\
      Seller.result_total p = Z.of_nat (List.length product_list).
Proof.
  induction fuel as [|fuel IH]; intros last_id acc w pl w';
    cbn [Seller.get_offer_ids_loop]; [discriminate|].
  unfold bind at 1, call.
  destruct (get_product_list last_id client_id seller_token w)
    as [[p|e] w1] eqn:Hcall; [|discriminate].
  destruct (Z.eqb_spec (Seller.result_total p)
              (Z.of_nat (List.length (acc ++ Seller.result_items p))))
    as [E|_].
  - intros [= <- <-]. now exists last_id, w, p.
  - apply IH.
Qed.

Lemma market_loop_returns
    (get_product_list : string -> string -> string -> world ->
                        result Market.page_result * world)
    (campaign_id market_token : string) (fuel : nat) :
  forall page acc w product_list w',
    Market.get_offer_ids_loop world get_product_list fuel campaign_id
      market_token page acc w = Some (Ok product_list, w') ->
    exists page' w0 p,
      get_product_list page' campaign_id market_token w0 = (Ok p, w') /\
      Market.no_next_page (Market.nextPageToken (Market.paging p)) = true.
Proof.
  induction fuel as [|fuel IH]; intros page acc w pl w';
    cbn [Market.get_offer_ids_loop]; [discriminate|].
  unfold bind at 1, call.
  destruct (get_product_list page campaign_id market_token w)
    as [[p|e] w1] eqn:Hcall; [|discriminate].
  cbv zeta.
  destruct (Market.no_next_page (Market.nextPageToken (Market.paging p)))
    eqn:Hend.
  - intros [= <- <-]. now exists page, w, p.
  - apply IH.
Qed.

End StopTest.

(** X16.  [get_offer_ids] returns only from a call of the catalogue whose
    page passed the stop test, and that call is its last: in seller.py the
    number of offer ids returned equals the total that this last page
    reports; in market.py this last page carries no next-page token. *)
Theorem get_offer_ids_last_page (world : Type) :
  (forall get_product_list fuel client_id seller_token (w w' : world) ids,
     Seller.get_offer_ids world get_product_list fuel client_id
       seller_token w = Some (Ok ids, w') ->
     exists last_id w0 p,
       get_product_list last_id client_id seller_token w0 = (Ok p, w') /\
       Seller.result_total p = Z.of_nat (List.length ids)) /\
  (forall get_product_list fuel campaign_id market_token (w w' : world) ids,
     Market.get_offer_ids world get_product_list fuel campaign_id
       market_token w = Some (Ok ids, w') ->
     exists page w0 p,
       get_product_list page campaign_id market_token w0 = (Ok p, w') /\
       Market.no_next_page (Market.nextPageToken (Market.paging p)) = true).
Proof.
  split.
  - intros gpl fuel c t w w' ids H. unfold Seller.get_offer_ids in H.
    apply bind_inv in H. destruct H as (pl & w1 & Hloop & Hret).
    unfold ret in Hret. injection Hret as <- <-.
    rewrite length_map. eapply seller_loop_returns. exact Hloop.
  - intros gpl fuel c t w w' ids H. unfold Market.get_offer_ids in H.
    apply bind_inv in H. destruct H as (pl & w1 & Hloop & Hret).
    unfold ret in Hret. injection Hret as _ <-.
    eapply market_loop_returns. exact Hloop.
Qed.

Lemma get_offer_ids_last_page_witness :
  exists last_id w0 p,
    two_page_catalogue last_id "client" "token" w0 = (Ok p, tt) /\
    Seller.result_total p = Z.of_nat (List.length ["a"]).
Proof.
  apply (proj1 (get_offer_ids_last_page unit) two_page_catalogue 5%nat
           "client" "token" tt tt ["a"]).
  reflexivity.
Defined.

(** ** The entry points *)

(** X17.  [main] of seller.py, once the offer ids (free of duplicates) and
    a feed whose quantities normalise are fetched: all it does further is
    to submit the stock batches; the price pass, run on the list that
    [create_stocks] has consumed, finds nothing, and [update_price] is not
    called. *)
Theorem seller_main_stock_pass_only (world : Type)
    (get_product_list : string -> string -> string -> world ->
                        result Seller.page * world)
    (update_stocks : list Seller.stock_entry -> string -> string -> world ->
                     result unit * world)
    (update_price : list Seller.price_entry -> string -> string -> world ->
                    result unit * world)
    (download_stock : world -> result (list watch) * world)
    (fuel : nat) (client_id seller_token : string) (w w1 w2 : world)
    (ids : list string) (ws : list watch) :
  Seller.get_offer_ids world get_product_list fuel client_id seller_token w
  = Some (Ok ids, w1) ->
  download_stock w1 = (Ok ws, w2) ->
  NoDup ids ->
  (forall x, In x ws -> exists n, stock_count x = Ok n) ->
  exists stocks batches,
    fst (Seller.create_stocks ws ids) = Ok stocks /\
    Seller.divide stocks 100 = Ok batches /\
    Seller.main world get_product_list update_stocks update_price
      download_stock fuel client_id seller_token w =
    try_except
      (for_each batches
         (fun b => call (update_stocks b client_id seller_token)))
      (fun _ => ret tt) w2.
Proof.
  intros Hids Hfeed Hnd Hok.
  destruct (create_prices_after_create_stocks ws ids Hnd Hok) as [_ Hp].
  assert (Hcall : call download_stock w1 = Some (Ok ws, w2))
    by (unfold call; now rewrite Hfeed).
  assert (Hs : Seller.create_stocks ws ids =
               (Ok (map seller_decision (matched [] ws ids) ++
                    map seller_zero (unmatched ws ids)), unmatched ws ids)).
  { apply create_stocks_spec; [exact Hnd|].
    intros x Hx. apply Hok. now apply (matched_In ws ids [] x). }
  destruct (divide_batches
              (map seller_decision (matched [] ws ids) ++
               map seller_zero (unmatched ws ids)) 100 ltac:(lia))
    as (batches & Hd & _ & _).
  eexists. exists batches. split; [now rewrite Hs|]. split; [exact Hd|].
  unfold Seller.main, try_except.
  rewrite (bind_ok _ _ _ _ _ Hids). rewrite (bind_ok _ _ _ _ _ Hcall).
  rewrite Hs in Hp |- *. cbn [snd] in Hp. unfold bind, lift.
  rewrite Hd, Hp.
  destruct (for_each batches _ w2) as [[[[]|e] w3]|]; reflexivity.
Qed.

Lemma seller_main_stock_pass_only_witness :
  exists stocks batches,
    fst (Seller.create_stocks
           [{| kod := VStr "123"; kolichestvo := VStr ">10";
               tsena := VStr "5990.00" |}]
           ["123"; "456"]) = Ok stocks /\
    Seller.divide stocks 100 = Ok batches /\
    Seller.main recording_world (one_page ["123"; "456"]) record_stocks
      record_prices
      (fixed_feed [{| kod := VStr "123"; kolichestvo := VStr ">10";
                      tsena := VStr "5990.00" |}])
      1 "client" "token" [] =
    try_except
      (for_each batches (fun b => call (record_stocks b "client" "token")))
      (fun _ => ret tt) [].
Proof.
  apply (seller_main_stock_pass_only recording_world
           (one_page ["123"; "456"]) record_stocks record_prices
           (fixed_feed [{| kod := VStr "123"; kolichestvo := VStr ">10";
                           tsena := VStr "5990.00" |}])
           1%nat "client" "token" [] [] [] ["123"; "456"]).
  - reflexivity.
  - reflexivity.
  - repeat constructor; cbn; intuition discriminate.
  - intros x [<-|[]]. exists 100. reflexivity.
Defined.

